(** * A streaming frame-detection pipeline: producer and worker

    A shallow embedding of the two programs of [cv-yolo-world]:

    - [preprocess/src/preprocess.py], class [VideoPreprocessor]: reads
      frames from a video source, numbers them and publishes them;
    - [inference/src/inference.py], class [YOLOWorldInference]: loads a
      (possibly encrypted) model, polls for frames, runs the detector and
      republishes the detections.

    Python objects are values of [pyval]; exceptions are values of [exc]
    threaded through a state-and-exception monad, so that a [try]/[except]
    block of the source is a [try_except] here, statement for statement.
    The libraries the programs call (OpenCV, the Kafka client, the
    detector, Fernet) are taken as parameters of the sections below, or
    modelled where their behaviour decides a property (the JSON encoder,
    [torch.from_numpy], the producer queue). *)

From Stdlib Require Import ZArith List String Ascii Bool Lia PrimFloat DecimalString.
Import ListNotations.
Open Scope string_scope.
Open Scope list_scope.
Open Scope Z_scope.

Set Warnings "-inexact-float,-register-all".

(* ================================================================== *)
(** * Python values, exceptions and the JSON encoder *)
(* ================================================================== *)

Module Py.

(** The exception classes the two programs can meet.  Everything but
    [KeyboardInterrupt] and [SystemExit] derives from [Exception]. *)
Inductive exc : Type :=
| TypeError
| KeyError
| IndexError
| ValueError
| AttributeError
| JSONDecodeError
| BufferError
| KafkaException
| CvError
| InvalidToken
| OSError
| RuntimeError
| KeyboardInterrupt
| SystemExit.

(** [isinstance(e, Exception)], what an [except Exception] clause tests. *)
Definition is_Exception (e : exc) : bool :=
  match e with
  | KeyboardInterrupt | SystemExit => false
  | _ => true
  end.

Definition is_KeyboardInterrupt (e : exc) : bool :=
  match e with
  | KeyboardInterrupt => true
  | _ => false
  end.

(** The outcome of evaluating an expression: a value or a raised exception. *)
Inductive result (A : Type) : Type :=
| Ok (a : A)
| Raise (e : exc).
Arguments Ok {A} a.
Arguments Raise {A} e.

(** A [numpy.ndarray] of [uint8]: its shape and its buffer. *)
Record ndarray : Type := mkNdarray {
  shape : list nat;
  buf : list Byte.byte
}.

(** [ndarray.tobytes()]. *)
Definition tobytes (a : ndarray) : list Byte.byte := buf a.

(** Python objects, as far as the programs handle them.  A [dict] keeps
    its insertion order and has string keys. *)
Inductive pyval : Type :=
| PyNone
| PyBool (b : bool)
| PyInt (n : Z)
| PyFloat (x : float)
| PyStr (s : string)
| PyBytes (b : list Byte.byte)
| PyList (l : list pyval)
| PyDict (d : list (string * pyval))
| PyNdarray (a : ndarray).

(** JSON documents.  The text syntax is not modelled: the wire carries a
    document, and a payload that is not JSON text is kept apart (see
    [payload] below). *)
Inductive json : Type :=
| JNull
| JBool (b : bool)
| JInt (n : Z)
| JFloat (x : float)
| JStr (s : string)
| JArr (l : list json)
| JObj (d : list (string * json)).

(** The default [json.JSONEncoder]: [None], [bool], [int], [float], [str],
    [list] and [dict] are encoded; any other object ([bytes], an
    [ndarray]) makes it raise
    [TypeError: Object of type ... is not JSON serializable]. *)
Fixpoint to_json (v : pyval) : option json :=
  match v with
  | PyNone => Some JNull
  | PyBool b => Some (JBool b)
  | PyInt n => Some (JInt n)
  | PyFloat x => Some (JFloat x)
  | PyStr s => Some (JStr s)
  | PyBytes _ => None
  | PyNdarray _ => None
  | PyList l =>
      option_map JArr
        ((fix items (l : list pyval) : option (list json) :=
            match l with
            | [] => Some []
            | x :: r =>
                match to_json x, items r with
                | Some jx, Some jr => Some (jx :: jr)
                | _, _ => None
                end
            end) l)
  | PyDict d =>
      option_map JObj
        ((fix items (d : list (string * pyval)) : option (list (string * json)) :=
            match d with
            | [] => Some []
            | (k, x) :: r =>
                match to_json x, items r with
                | Some jx, Some jr => Some ((k, jx) :: jr)
                | _, _ => None
                end
            end) d)
  end.

(** [json.dumps(v)]. *)
Definition json_dumps (v : pyval) : result json :=
  match to_json v with
  | Some j => Ok j
  | None => Raise TypeError
  end.

(** The object [json.loads] builds from a document. *)
Fixpoint of_json (j : json) : pyval :=
  match j with
  | JNull => PyNone
  | JBool b => PyBool b
  | JInt n => PyInt n
  | JFloat x => PyFloat x
  | JStr s => PyStr s
  | JArr l => PyList (map of_json l)
  | JObj d => PyDict (map (fun kv => (fst kv, of_json (snd kv))) d)
  end.

(** What a Kafka message value is to [json.loads]: text that does not
    parse, or the text of a document. *)
Inductive payload : Type :=
| NotJson (raw : string)
| JsonText (doc : json).

(** [json.loads(value)], where [value] is [msg.value()]: [None] for a
    message without a value. *)
Definition json_loads (value : option payload) : result pyval :=
  match value with
  | None => Raise TypeError
  | Some (NotJson _) => Raise JSONDecodeError
  | Some (JsonText doc) => Ok (of_json doc)
  end.

(** [str(n)] for an [int]. *)
Definition str_int (n : Z) : string := NilZero.string_of_int (Z.to_int n).

(** Lookup in a [dict] body: the value stored under [k], the last one
    inserted winning as in a [dict] built from a literal or by the parser. *)
Fixpoint dict_get (k : string) (d : list (string * pyval)) : option pyval :=
  match d with
  | [] => None
  | (k', v) :: r =>
      match dict_get k r with
      | Some w => Some w
      | None => if String.eqb k k' then Some v else None
      end
  end.

(** [obj[k]] for a string key [k]: a [dict] answers or raises [KeyError];
    no other object of [pyval] accepts a string subscript. *)
Definition getitem (obj : pyval) (k : string) : result pyval :=
  match obj with
  | PyDict d =>
      match dict_get k d with
      | Some v => Ok v
      | None => Raise KeyError
      end
  | _ => Raise TypeError
  end.

(** [len(obj)]. *)
Definition py_len (obj : pyval) : result nat :=
  match obj with
  | PyStr s => Ok (String.length s)
  | PyBytes b => Ok (List.length b)
  | PyList l => Ok (List.length l)
  | PyDict d => Ok (List.length d)
  | PyNdarray a => Ok (hd 0%nat (shape a))
  | _ => Raise TypeError
  end.

(** [bool(obj)], the test of an [if obj:] statement.  (The truth value of
    an [ndarray] is taken from its size; the programs never test one.) *)
Definition truthy (obj : pyval) : bool :=
  match obj with
  | PyNone => false
  | PyBool b => b
  | PyInt n => negb (n =? 0)
  | PyFloat x => negb (PrimFloat.eqb x 0%float)
  | PyStr s => negb (String.eqb s EmptyString)
  | PyBytes b => negb (Nat.eqb (List.length b) 0)
  | PyList l => negb (Nat.eqb (List.length l) 0)
  | PyDict d => negb (Nat.eqb (List.length d) 0)
  | PyNdarray a => negb (Nat.eqb (List.length (buf a)) 0)
  end.

End Py.
Import Py.

(* ================================================================== *)
(** * State and exceptions *)
(* ================================================================== *)

(** A computation over a state [S]: it ends with a value or a raised
    exception, and the state reached either way (what a statement did
    before it raised stays done). *)
Definition M (S A : Type) : Type := S -> result A * S.

Definition ret {S A : Type} (a : A) : M S A := fun s => (Ok a, s).

Definition bind {S A B : Type} (c : M S A) (k : A -> M S B) : M S B :=
  fun s =>
    match c s with
    | (Ok a, s') => k a s'
    | (Raise e, s') => (Raise e, s')
    end.

Definition raise {S A : Type} (e : exc) : M S A := fun s => (Raise e, s).

Definition lift {S A : Type} (r : result A) : M S A := fun s => (r, s).

Definition get {S : Type} : M S S := fun s => (Ok s, s).

Definition modify {S : Type} (f : S -> S) : M S unit := fun s => (Ok tt, f s).

(** [try: body  except Exception as e: handler(e)]. *)
Definition try_except {S A : Type} (body : M S A) (handler : exc -> M S A) : M S A :=
  fun s =>
    match body s with
    | (Ok a, s') => (Ok a, s')
    | (Raise e, s') => if is_Exception e then handler e s' else (Raise e, s')
    end.

(** [try: body  finally: cleanup]. *)
Definition try_finally {S A : Type} (body : M S A) (cleanup : M S unit) : M S A :=
  fun s =>
    match body s with
    | (r, s') =>
        match cleanup s' with
        | (Ok _, s'') => (r, s'')
        | (Raise e, s'') => (Raise e, s'')
        end
    end.

Declare Scope monad_scope.
Delimit Scope monad_scope with monad.
Notation "x <- c1 ;; c2" := (bind c1 (fun x => c2))
  (at level 61, c1 at next level, right associativity) : monad_scope.
Notation "c1 ;; c2" := (bind c1 (fun _ => c2))
  (at level 61, right associativity) : monad_scope.
Open Scope monad_scope.

(** A line written through [logger.error]: the fixed text of the message
    and the exception (or error object) formatted into it. *)
Record log_line : Type := LogError {
  log_text : string;
  log_exc : exc
}.

(* ================================================================== *)
(** * The Kafka producer client *)
(* ================================================================== *)

Module Kafka.

(** A message handed to [Producer.produce]. *)
Record record : Type := mkRecord {
  topic : string;
  key : string;
  value : json
}.

(** The client's send queue.  [produce] appends to it and raises
    [BufferError] when it is full ([queue.buffering.max.messages]);
    [flush] waits until the queue is delivered. *)
Record Producer : Type := mkProducer {
  queue_limit : nat;
  queue : list record;
  delivered : list record
}.

Definition produce (r : record) (p : Producer) : result Producer :=
  if Nat.ltb (List.length (queue p)) (queue_limit p)
  then Ok (mkProducer (queue_limit p) (queue p ++ [r]) (delivered p))
  else Raise BufferError.

(** [poll(0)] serves delivery callbacks and returns at once. *)
Definition poll0 (p : Producer) : Producer := p.

Definition flush (p : Producer) : Producer :=
  mkProducer (queue_limit p) [] (delivered p ++ queue p).

(** Every record [produce] accepted so far, oldest first. *)
Definition published (p : Producer) : list record := delivered p ++ queue p.

Definition fresh (limit : nat) : Producer := mkProducer limit [] [].

End Kafka.

(* ================================================================== *)
(** * The producer: [preprocess.py] *)
(* ================================================================== *)

Module Preprocess.

(** The attributes [__init__] sets on a [VideoPreprocessor]. *)
Record VideoPreprocessor : Type := mkVideoPreprocessor {
  producer : Kafka.Producer;
  frames_topic : string;
  frame_rate : Z;
  frame_count : Z
}.

(** The process around the instance: the instance itself, what was
    written to the log, and how many times a capture was released. *)
Record state : Type := mkState {
  self : VideoPreprocessor;
  log : list log_line;
  released : nat
}.

(** [VideoPreprocessor(kafka_config, frames_topic, frame_rate)], given the
    client [Producer(kafka_config)] built. *)
Definition __init__ (p : Kafka.Producer) (topic : string) (rate : Z) : VideoPreprocessor :=
  mkVideoPreprocessor p topic rate 0.

Definition start (p : Kafka.Producer) : state :=
  mkState (__init__ p "frames" 30) [] 0.

Definition logger_error (text : string) (e : exc) : M state unit :=
  modify (fun s => mkState (self s) (log s ++ [LogError text e]) (released s)).

Definition set_self (v : VideoPreprocessor) : M state unit :=
  modify (fun s => mkState v (log s) (released s)).

Definition set_producer (p : Kafka.Producer) : M state unit :=
  s <- get ;;
  set_self (mkVideoPreprocessor p (frames_topic (self s)) (frame_rate (self s))
                                (frame_count (self s))).

(** [self.frame_count += 1]. *)
Definition incr_frame_count : M state unit :=
  s <- get ;;
  set_self (mkVideoPreprocessor (producer (self s)) (frames_topic (self s))
                                (frame_rate (self s)) (frame_count (self s) + 1)).

(** [delivery_report(err, msg)]: a failed delivery is logged (the debug
    line of a delivered message is below the configured level). *)
Definition delivery_report (err : option exc) : M state unit :=
  match err with
  | Some e => logger_error "Message delivery failed" e
  | None => ret tt
  end.

(** The frame message of [process_frame]. *)
Definition frame_message (frame_bytes : list Byte.byte) (prompt : string) (n : Z) : pyval :=
  PyDict [("frame", PyBytes frame_bytes); ("prompt", PyStr prompt); ("frame_id", PyInt n)].

Section Producer.

(** [cv2.imencode('.jpg', frame)]: the pair it returns, or the error it
    raises. *)
Variable imencode : ndarray -> result (bool * ndarray).

(** [json.dumps].  The encoder is a parameter so that the statements about
    the counter hold whichever objects it accepts; [Py.json_dumps] is the
    encoder of the standard library. *)
Variable dumps : pyval -> result json.

(** [cv2.VideoCapture(source)]: the frames a source that opens will
    yield, [None] for a source that does not open. *)
Variable video : string -> option (list ndarray).

(** [self.producer.produce(self.frames_topic, key=..., value=...)]. *)
Definition producer_produce (key : string) (value : json) : M state unit :=
  s <- get ;;
  p <- lift (Kafka.produce (Kafka.mkRecord (frames_topic (self s)) key value)
                           (producer (self s))) ;;
  set_producer p.

(** [self.producer.poll(0)]. *)
Definition producer_poll0 : M state unit :=
  s <- get ;;
  set_producer (Kafka.poll0 (producer (self s))).

(** [self.producer.flush()]. *)
Definition producer_flush : M state unit :=
  s <- get ;;
  set_producer (Kafka.flush (producer (self s))).

(** The body of the [try] block of [process_frame]. *)
Definition publish_frame (frame : ndarray) (prompt : string) : M state unit :=
  enc <- lift (imencode frame) ;;
  let encoded_frame := snd enc in
  let frame_bytes := tobytes encoded_frame in
  s <- get ;;
  let message := frame_message frame_bytes prompt (frame_count (self s)) in
  let key := str_int (frame_count (self s)) in
  value <- lift (dumps message) ;;
  producer_produce key value ;;
  producer_poll0 ;;
  incr_frame_count.

Definition process_frame (frame : ndarray) (prompt : string) : M state unit :=
  try_except (publish_frame frame prompt)
             (fun e => logger_error "Error processing frame" e).

(** The [while True] loop over the frames [cap.read()] still has to give;
    [ret] false, the empty list here, leaves the loop. *)
Fixpoint read_frames (frames : list ndarray) (prompt : string) : M state unit :=
  match frames with
  | [] => ret tt
  | frame :: rest =>
      process_frame frame prompt ;;
      producer_flush ;;
      read_frames rest prompt
  end.

(** [cap.release()] in the [finally] block; [cap] is bound whenever the
    constructor returned. *)
Definition cap_release : M state unit :=
  modify (fun s => mkState (self s) (log s) (S (released s))).

Definition process_video (video_source : string) (prompt : string) : M state unit :=
  try_finally
    (try_except
       (match video video_source with
        | None => raise ValueError
        | Some frames => read_frames frames prompt
        end)
       (fun e => logger_error "Error processing video" e))
    cap_release.

(** ** Vocabulary for the properties below *)

(** Every step of the [try] block of [process_frame] goes through at
    state [s]: the frame encodes, the message serialises, and the client
    has room for it. *)
Definition steps_ok (frame : ndarray) (prompt : string) (s : state) : bool :=
  match imencode frame with
  | Ok enc =>
      match dumps (frame_message (tobytes (snd enc)) prompt (frame_count (self s))) with
      | Ok _ => Nat.ltb (List.length (Kafka.queue (producer (self s))))
                        (Kafka.queue_limit (producer (self s)))
      | Raise _ => false
      end
  | Raise _ => false
  end.

End Producer.

(** The state with one more line in the log. *)
Definition add_log (s : state) (text : string) (e : exc) : state :=
  mkState (self s) (log s ++ [LogError text e]) (released s).

(** What the [except Exception] clause of [process_frame] makes of an
    exception raised at state [s]. *)
Definition frame_handler (e : exc) (s : state) : result unit * state :=
  if is_Exception e then (Ok tt, add_log s "Error processing frame" e)
  else (Raise e, s).

(** The record [process_frame] hands to the client for frame number [n]. *)
Definition frame_record (s : state) (value : json) : Kafka.record :=
  Kafka.mkRecord (frames_topic (self s)) (str_int (frame_count (self s))) value.

(** The state once [flush] has returned. *)
Definition flushed (s : state) : state :=
  mkState (mkVideoPreprocessor (Kafka.flush (producer (self s))) (frames_topic (self s))
                               (frame_rate (self s)) (frame_count (self s)))
          (log s) (released s).

(** The numbers [n], [n+1], ..., [n+k-1]. *)
Definition ids_from (n : Z) (k : nat) : list Z :=
  map (fun i => n + Z.of_nat i) (seq 0 k).

(** A fresh instance around a client with room for 1000 records. *)
Definition fresh_state : state := start (Kafka.fresh 1000).


(** The [frame_id] values of the records a producer client has accepted,
    read back from the keys they were published under. *)
Definition published_keys (s : state) : list string :=
  map Kafka.key (Kafka.published (producer (self s))).

End Preprocess.

(* ================================================================== *)
(** * The worker: [inference.py] *)
(* ================================================================== *)

Module Inference.

(** ** The detector's results *)

(** One row of [Boxes.data] (ultralytics): the corners of the box, the
    confidence and the class.  A [Boxes] object wraps one array of shape
    (n, 6); its attributes [xyxy], [conf] and [cls] are the column slices
    [data[:, :4]], [data[:, -2]] and [data[:, -1]] of that array. *)
Record box : Type := mkBox {
  x1 : float;
  y1 : float;
  x2 : float;
  y2 : float;
  conf : float;
  cls : float
}.

Record Boxes : Type := mkBoxes {
  data : list box
}.

(** [boxes.xyxy.tolist()], [boxes.cls.tolist()], [boxes.conf.tolist()]. *)
Definition xyxy_tolist (b : Boxes) : pyval :=
  PyList (map (fun r => PyList [PyFloat (x1 r); PyFloat (y1 r); PyFloat (x2 r); PyFloat (y2 r)])
              (data b)).

Definition cls_tolist (b : Boxes) : pyval :=
  PyList (map (fun r => PyFloat (cls r)) (data b)).

Definition conf_tolist (b : Boxes) : pyval :=
  PyList (map (fun r => PyFloat (conf r)) (data b)).

(** A [Results] object; [boxes] is [None] for a model without a detection
    head. *)
Record Results : Type := mkResults {
  boxes : option Boxes
}.

(** The loaded model as the worker calls it: [model(frame, prompt=prompt)]
    returns a list of results or raises. *)
Definition detector : Type := ndarray -> pyval -> result (list Results).

(** [torch.from_numpy(obj)] accepts an [ndarray] and nothing else
    ([TypeError: expected np.ndarray]); the tensor shares the buffer. *)
Definition from_numpy (obj : pyval) : result ndarray :=
  match obj with
  | PyNdarray a => Ok a
  | _ => Raise TypeError
  end.

(** [results[0]]. *)
Definition first_result (results : list Results) : result Results :=
  match results with
  | r :: _ => Ok r
  | [] => Raise IndexError
  end.

(** [r.boxes.<attr>]: an attribute of [None] cannot be read. *)
Definition boxes_of (r : Results) : result Boxes :=
  match boxes r with
  | Some b => Ok b
  | None => Raise AttributeError
  end.

(** ** The worker object and its process *)

Record YOLOWorldInference : Type := mkWorker {
  consumer_closed : bool;
  producer : Kafka.Producer;
  frames_topic : string;
  detections_topic : string;
  model : detector;
  device : string
}.

Record state : Type := mkState {
  self : YOLOWorldInference;
  log : list log_line
}.

Definition logger_error (text : string) (e : exc) : M state unit :=
  modify (fun s => mkState (self s) (log s ++ [LogError text e])).

Definition set_producer (p : Kafka.Producer) : M state unit :=
  modify (fun s =>
    mkState (mkWorker (consumer_closed (self s)) p (frames_topic (self s))
                      (detections_topic (self s)) (model (self s)) (device (self s)))
            (log s)).

(** [self.consumer.close()]. *)
Definition consumer_close (s : state) : state :=
  mkState (mkWorker true (producer (self s)) (frames_topic (self s))
                    (detections_topic (self s)) (model (self s)) (device (self s)))
          (log s).

(** The dictionary [process_frame] assembles from a frame number and the
    boxes of the first result. *)
Definition detections_of (frame_id : pyval) (b : Boxes) : pyval :=
  PyDict [("frame_id", frame_id);
          ("boxes", xyxy_tolist b);
          ("labels", cls_tolist b);
          ("confidences", conf_tolist b)].

(** The body of the [try] block of [process_frame]. *)
Definition detect (frame_data : pyval) : M state pyval :=
  raw <- lift (getitem frame_data "frame") ;;
  frame <- lift (from_numpy raw) ;;
  prompt <- lift (getitem frame_data "prompt") ;;
  frame_id <- lift (getitem frame_data "frame_id") ;;
  s <- get ;;
  results <- lift (model (self s) frame prompt) ;;
  r0 <- lift (first_result results) ;;
  b <- lift (boxes_of r0) ;;
  ret (detections_of frame_id b).

Definition process_frame (frame_data : pyval) : M state pyval :=
  try_except (detect frame_data)
             (fun e => logger_error "Error processing frame" e ;; ret PyNone).

Section Worker.

(** [str(obj)] for the objects whose text is not modelled (a [float], a
    container, [bytes]). *)
Variable str_other : pyval -> string.

(** [str(obj)]. *)
Definition py_str (obj : pyval) : string :=
  match obj with
  | PyInt n => str_int n
  | PyStr s => s
  | PyNone => "None"
  | PyBool true => "True"
  | PyBool false => "False"
  | _ => str_other obj
  end.

(** The [if detections:] statement of [run]. *)
Definition publish_detections (detections : pyval) : M state unit :=
  if truthy detections then
    s <- get ;;
    frame_id <- lift (getitem detections "frame_id") ;;
    let key := py_str frame_id in
    value <- lift (json_dumps detections) ;;
    p <- lift (Kafka.produce (Kafka.mkRecord (detections_topic (self s)) key value)
                             (producer (self s))) ;;
    set_producer p ;;
    set_producer (Kafka.poll0 p)
  else ret tt.

(** The inner [try] block of [run], for a message without error. *)
Definition process_message (value : option payload) : M state unit :=
  try_except
    (frame_data <- lift (json_loads value) ;;
     detections <- process_frame frame_data ;;
     publish_detections detections)
    (fun e => logger_error "Error processing message" e).

(** What one call of [self.consumer.poll(1.0)] gives: nothing within the
    timeout, an error event, a message with its value, or an exception
    (a [KeyboardInterrupt] when the process is interrupted). *)
Inductive polled : Type :=
| PollNone
| PollError
| PollMessage (value : option payload)
| PollRaises (e : exc).

(** The [while True] loop, run over the outcomes of its successive polls.
    The loop has no exit of its own: when the list is used up the worker
    is back at [poll]. *)
Fixpoint poll_loop (polls : list polled) : M state unit :=
  match polls with
  | [] => ret tt
  | PollNone :: rest => poll_loop rest
  | PollError :: rest => logger_error "Consumer error" KafkaException ;; poll_loop rest
  | PollMessage value :: rest => process_message value ;; poll_loop rest
  | PollRaises e :: _ => raise e
  end.

(** How [run] stands after the polls: still polling, returned (after a
    [KeyboardInterrupt]), or left by an exception. *)
Inductive run_outcome : Type :=
| Polling
| Returned
| Propagated (e : exc).

Definition run (polls : list polled) (s : state) : run_outcome * state :=
  match poll_loop polls s with
  | (Ok _, s') => (Polling, s')
  | (Raise e, s') =>
      if is_KeyboardInterrupt e then (Returned, consumer_close s')
      else (Propagated e, consumer_close s')
  end.

End Worker.

(** ** Start-up: [__init__] and [_load_model] *)

(** The calls start-up makes on the world outside the process, in the
    order it makes them. *)
Inductive event : Type :=
| KafkaConsumerNew
| KafkaProducerNew
| KafkaAssign (topic : string) (partition : Z)
| Getenv (name : string)
| OpenRead (path : string)
| OpenWrite (path : string)
| FernetNew
| FernetDecrypt
| YoloLoad (path : string)
| TorchCudaAvailable
| LoggedError (text : string) (e : exc)
| LoggedInfo (text : string).

(** The world at start-up: the environment variables, the files, and the
    calls made so far. *)
Record world : Type := mkWorld {
  environ : list (string * string);
  files : list (string * list Byte.byte);
  events : list event
}.

Definition emit (ev : event) : M world unit :=
  modify (fun w => mkWorld (environ w) (files w) (events w ++ [ev])).

Fixpoint lookup {A : Type} (k : string) (l : list (string * A)) : option A :=
  match l with
  | [] => None
  | (k', v) :: r => if String.eqb k k' then Some v else lookup k r
  end.

(** [os.getenv(name)]. *)
Definition getenv (name : string) : M world (option string) :=
  emit (Getenv name) ;;
  w <- get ;;
  ret (lookup name (environ w)).

(** [open(path, 'rb').read()]. *)
Definition read_file (path : string) : M world (list Byte.byte) :=
  emit (OpenRead path) ;;
  w <- get ;;
  match lookup path (files w) with
  | Some content => ret content
  | None => raise OSError
  end.

(** [open(path, 'wb').write(content)]. *)
Definition write_file (path : string) (content : list Byte.byte) : M world unit :=
  emit (OpenWrite path) ;;
  modify (fun w => mkWorld (environ w) ((path, content) :: files w) (events w)).

(** [s.endswith(suffix)]. *)
Definition endswith (s suffix : string) : bool :=
  let n := String.length s in
  let m := String.length suffix in
  Nat.leb m n && String.eqb (substring (n - m) m s) suffix.

(** [not key] for the value [os.getenv] returned: true for [None] and for
    the empty string. *)
Definition key_missing (key : option string) : bool :=
  match key with
  | None => true
  | Some k => String.eqb k EmptyString
  end.

Section Startup.

(** The Fernet cipher: [Fernet(key)] builds it (and raises [ValueError]
    on a key that is not 32 url-safe base64-encoded bytes), [decrypt]
    returns the plaintext of a token or raises [InvalidToken]. *)
Variable cipher : Type.
Variable Fernet : string -> result cipher.
Variable decrypt : cipher -> list Byte.byte -> result (list Byte.byte).

(** [YOLO(path)], from the content of the file at [path]. *)
Variable YOLO : list Byte.byte -> result detector.

(** The Kafka client at start-up: what [Consumer(conf)], [Producer(conf)]
    and [consumer.assign] return or raise. *)
Variable new_consumer : result unit.
Variable new_producer : result Kafka.Producer.
Variable assign : string -> Z -> result unit.

(** [torch.cuda.is_available()]. *)
Variable cuda_is_available : bool.

(** The body of the [try] block of [_load_model]. *)
Definition load_model_body (model_path : string) : M world detector :=
  path <-
    (if endswith model_path ".enc" then
       key <- getenv "MODEL_ENCRYPTION_KEY" ;;
       if key_missing key then raise ValueError
       else
         emit FernetNew ;;
         f <- lift (Fernet (match key with Some k => k | None => EmptyString end)) ;;
         encrypted_data <- read_file model_path ;;
         emit FernetDecrypt ;;
         decrypted_data <- lift (decrypt f encrypted_data) ;;
         let temp_model_path := "/tmp/model.pt" in
         write_file temp_model_path decrypted_data ;;
         ret temp_model_path
     else ret model_path) ;;
  emit (YoloLoad path) ;;
  w <- get ;;
  match lookup path (files w) with
  | Some content => lift (YOLO content)
  | None => raise OSError
  end.

(** [_load_model]: the handler logs and raises the exception again. *)
Definition _load_model (model_path : string) : M world detector :=
  try_except (load_model_body model_path)
             (fun e => emit (LoggedError "Error loading model" e) ;; raise e).

(** [YOLOWorldInference(kafka_config, model_path, frames_topic,
    detections_topic, partition)]. *)
Definition __init__ (model_path frames_topic detections_topic : string) (partition : Z)
  : M world YOLOWorldInference :=
  emit KafkaConsumerNew ;;
  lift new_consumer ;;
  emit KafkaProducerNew ;;
  p <- lift new_producer ;;
  emit (KafkaAssign frames_topic partition) ;;
  lift (assign frames_topic partition) ;;
  m <- _load_model model_path ;;
  emit TorchCudaAvailable ;;
  let device := if cuda_is_available then "cuda" else "cpu" in
  emit (LoggedInfo "Using device") ;;
  ret (mkWorker false p frames_topic detections_topic m device).

End Startup.

(** A call made on the message broker. *)
Definition is_broker_call (ev : event) : bool :=
  match ev with
  | KafkaConsumerNew | KafkaProducerNew | KafkaAssign _ _ => true
  | _ => false
  end.


(** ** Vocabulary for the properties below *)

(** The world after [calls] more calls. *)
Definition after (w : world) (calls : list event) : world :=
  mkWorld (environ w) (files w) (events w ++ calls).

(** The entries of a list, encoded one by one: the inner loop of
    [to_json] on a [list]. *)
Definition items_to_json : list pyval -> option (list json) :=
  fix items (l : list pyval) : option (list json) :=
    match l with
    | [] => Some []
    | x :: r =>
        match to_json x, items r with
        | Some jx, Some jr => Some (jx :: jr)
        | _, _ => None
        end
    end.

(** [len(d[k])]. *)
Definition len_of (d : pyval) (k : string) : result nat :=
  match getitem d k with
  | Ok v => py_len v
  | Raise e => Raise e
  end.

(** The length of the array under [k] in a JSON object. *)
Definition json_len_of (j : json) (k : string) : option nat :=
  match j with
  | JObj d =>
      match lookup k d with
      | Some (JArr l) => Some (List.length l)
      | _ => None
      end
  | _ => None
  end.

(** The records the worker's producer client has accepted. *)
Definition published (s : state) : list Kafka.record :=
  Kafka.published (producer (self s)).

End Inference.

(* ================================================================== *)
(** * Fixtures: concrete frames, codecs and sources *)
(* ================================================================== *)

Module Fixtures.

(** A 2x2 grey test image and an empty one. *)
Definition image2x2 : ndarray :=
  mkNdarray [2%nat; 2%nat] [Byte.x00; Byte.x40; Byte.x80; Byte.xff].

Definition empty_image : ndarray := mkNdarray [0%nat; 0%nat] [].

(** A codec in the manner of [cv2.imencode]: it raises on an empty image
    and returns a buffer otherwise (the image bytes behind a two-byte
    start marker, standing for the compressed data). *)
Definition imencode (frame : ndarray) : result (bool * ndarray) :=
  match buf frame with
  | [] => Raise CvError
  | b => Ok (true, mkNdarray [(2 + List.length b)%nat] (Byte.xff :: Byte.xd8 :: b))
  end.

(** An encoder that, unlike [json.dumps], accepts the frame message: the
    bytes go out as an array of numbers. *)
Definition dumps_bytes_as_array (v : pyval) : result json :=
  match v with
  | PyDict [(kf, PyBytes b); (kp, PyStr p); (ki, PyInt n)] =>
      Ok (JObj [(kf, JArr (map (fun x => JInt (Z.of_N (Byte.to_N x))) b));
                (kp, JStr p); (ki, JInt n)])
  | _ => json_dumps v
  end.

(** One file that opens and yields three frames; nothing else opens. *)
Definition video (source : string) : option (list ndarray) :=
  if String.eqb source "clip.mp4" then Some [image2x2; image2x2; image2x2]
  else if String.eqb source "one.mp4" then Some [image2x2]
  else None.

(** A detector stub that finds one box [0,0,1,1] of class 2 with
    confidence 0.9 in every frame, and detectors that find [n] such boxes,
    that return no result, and that fail. *)
Definition one_box : Inference.box :=
  Inference.mkBox 0%float 0%float 1%float 1%float 0.9%float 2%float.

Definition stub_detector : Inference.detector :=
  fun _ _ => Ok [Inference.mkResults (Some (Inference.mkBoxes [one_box]))].

Definition detector_of (n : nat) : Inference.detector :=
  fun _ _ => Ok [Inference.mkResults (Some (Inference.mkBoxes (repeat one_box n)))].

Definition failing_detector : Inference.detector :=
  fun _ _ => Raise RuntimeError.

(** A worker as [__init__] leaves it, around a given model. *)
Definition worker (m : Inference.detector) : Inference.state :=
  Inference.mkState
    (Inference.mkWorker false (Kafka.fresh 1000) "frames" "detections" m "cpu")
    [].

Definition str_other (obj : pyval) : string := "<object>".

(** The frame message of the end-to-end test as it arrives from the
    broker, its image as the JSON value [frame], and the same message as a
    Python object holding the decoded image. *)
Definition frame7_json (frame : json) : json :=
  JObj [("frame_id", JInt 7); ("frame", frame); ("prompt", JStr "detect car")].

Definition frame7_object : pyval :=
  PyDict [("frame_id", PyInt 7); ("frame", PyNdarray image2x2);
          ("prompt", PyStr "detect car")].

(** The detection message the end-to-end test expects, and its record. *)
Definition detection7 : json :=
  JObj [("frame_id", JInt 7);
        ("boxes", JArr [JArr [JFloat 0%float; JFloat 0%float; JFloat 1%float; JFloat 1%float]]);
        ("labels", JArr [JFloat 2%float]);
        ("confidences", JArr [JFloat 0.9%float])].

Definition detection7_record : Kafka.record :=
  Kafka.mkRecord "detections" "7" detection7.

(** Start-up fixtures: a broker that accepts the clients, a cipher whose
    tokens are the plaintext behind the first byte of the key, and a
    loader that accepts any file. *)
Definition Fernet (key : string) : result string :=
  match key with
  | EmptyString => Raise ValueError
  | String _ _ => Ok key
  end.

Definition decrypt (key : string) (token : list Byte.byte) : result (list Byte.byte) :=
  match key, token with
  | String c _, b :: plaintext =>
      if Byte.eqb (byte_of_ascii c) b then Ok plaintext else Raise InvalidToken
  | _, _ => Raise InvalidToken
  end.

Definition YOLO (content : list Byte.byte) : result Inference.detector :=
  Ok stub_detector.

Definition new_consumer : result unit := Ok tt.
Definition new_producer : result Kafka.Producer := Ok (Kafka.fresh 1000).
Definition assign (topic : string) (partition : Z) : result unit := Ok tt.

Definition encrypted_model_path : string := "/models/yolo_world_m.pt.enc".

(** A machine that holds the encrypted model (under the key "k...") and
    whose environment does not set the key. *)
Definition world_without_key : Inference.world :=
  Inference.mkWorld
    [("KAFKA_BOOTSTRAP_SERVERS", "broker:9093")]
    [(encrypted_model_path, [Byte.x6b; Byte.x01; Byte.x02; Byte.x03])]
    [].

(** The same machine with the key set. *)
Definition world_with_key (key : string) : Inference.world :=
  Inference.mkWorld
    [("KAFKA_BOOTSTRAP_SERVERS", "broker:9093"); ("MODEL_ENCRYPTION_KEY", key)]
    [(encrypted_model_path, [Byte.x6b; Byte.x01; Byte.x02; Byte.x03])]
    [].

(** The detections the stub detector yields for frame number 7. *)
Definition detections7 : pyval :=
  Inference.detections_of (PyInt 7) (Inference.mkBoxes [one_box]).

End Fixtures.

(* ================================================================== *)
(** * Properties of the producer *)
(* ================================================================== *)

Module PreprocessFacts.
Import Preprocess.

Section Counter.

Variable imencode : ndarray -> result (bool * ndarray).
Variable dumps : pyval -> result json.
Variable video : string -> option (list ndarray).

(** [process_frame], one case per statement that can raise. *)
Lemma process_frame_cases (frame : ndarray) (prompt : string) (s : state) :
  process_frame imencode dumps frame prompt s =
  match imencode frame with
  | Raise e => frame_handler e s
  | Ok enc =>
      match dumps (frame_message (tobytes (snd enc)) prompt (frame_count (self s))) with
      | Raise e => frame_handler e s
      | Ok value =>
          match Kafka.produce (frame_record s value) (producer (self s)) with
          | Raise e => frame_handler e s
          | Ok p =>
              (Ok tt,
               mkState (mkVideoPreprocessor (Kafka.poll0 p) (frames_topic (self s))
                                            (frame_rate (self s)) (frame_count (self s) + 1))
                       (log s) (released s))
          end
      end
  end.
Proof.
  unfold process_frame, publish_frame, try_except, bind, lift, get, frame_handler.
  destruct (imencode frame) as [enc|e]; [|reflexivity].
  destruct (dumps _) as [value|e]; [|reflexivity].
  unfold producer_produce, bind, lift, get, frame_record.
  destruct (Kafka.produce _ _) as [p|e]; [|reflexivity].
  reflexivity.
Qed.

Lemma frame_handler_self (e : exc) (s : state) :
  self (snd (frame_handler e s)) = self s.
Proof. unfold frame_handler. destruct (is_Exception e); reflexivity. Qed.

Lemma produce_ok_iff (r : Kafka.record) (p : Kafka.Producer) :
  Nat.ltb (List.length (Kafka.queue p)) (Kafka.queue_limit p) = true ->
  Kafka.produce r p =
  Ok (Kafka.mkProducer (Kafka.queue_limit p) (Kafka.queue p ++ [r]) (Kafka.delivered p)).
Proof. intros H. unfold Kafka.produce. rewrite H. reflexivity. Qed.

Lemma produce_full (r : Kafka.record) (p : Kafka.Producer) :
  Nat.ltb (List.length (Kafka.queue p)) (Kafka.queue_limit p) = false ->
  Kafka.produce r p = Raise BufferError.
Proof. intros H. unfold Kafka.produce. rewrite H. reflexivity. Qed.

(** When a step fails the instance is left as it was. *)
Lemma process_frame_failed (frame : ndarray) (prompt : string) (s : state) :
  steps_ok imencode dumps frame prompt s = false ->
  self (snd (process_frame imencode dumps frame prompt s)) = self s.
Proof.
  intros H. rewrite process_frame_cases. unfold steps_ok in H.
  destruct (imencode frame) as [enc|e]; [|apply frame_handler_self].
  destruct (dumps _) as [value|e]; [|apply frame_handler_self].
  rewrite (produce_full _ _ H). apply frame_handler_self.
Qed.

(** When every step goes through the counter is one more. *)
Lemma process_frame_done (frame : ndarray) (prompt : string) (s : state) :
  steps_ok imencode dumps frame prompt s = true ->
  frame_count (self (snd (process_frame imencode dumps frame prompt s)))
  = frame_count (self s) + 1.
Proof.
  intros H. rewrite process_frame_cases. unfold steps_ok in H.
  destruct (imencode frame) as [enc|e]; [|discriminate].
  destruct (dumps _) as [value|e]; [|discriminate].
  rewrite (produce_ok_iff _ _ H). reflexivity.
Qed.

Lemma process_frame_count_step (frame : ndarray) (prompt : string) (s : state) :
  frame_count (self (snd (process_frame imencode dumps frame prompt s)))
  = frame_count (self s) + (if steps_ok imencode dumps frame prompt s then 1 else 0).
Proof.
  destruct (steps_ok imencode dumps frame prompt s) eqn:H.
  - apply process_frame_done; assumption.
  - rewrite (process_frame_failed _ _ _ H). lia.
Qed.

Lemma producer_flush_eq (s : state) :
  producer_flush s = (Ok tt, flushed s).
Proof. reflexivity. Qed.

(** The loop of [process_video] never lowers the counter. *)
Lemma read_frames_count_le (frames : list ndarray) (prompt : string) :
  forall s, frame_count (self s)
            <= frame_count (self (snd (read_frames imencode dumps frames prompt s))).
Proof.
  induction frames as [|frame rest IH]; intros s.
  - simpl. lia.
  - cbn [read_frames]. unfold bind.
    pose proof (process_frame_count_step frame prompt s) as Hstep.
    destruct (process_frame imencode dumps frame prompt s) as [[[]|e] s1].
    + rewrite producer_flush_eq. specialize (IH (flushed s1)).
      cbn [snd flushed self frame_count] in *.
      destruct (steps_ok imencode dumps frame prompt s); lia.
    + cbn [snd] in *. destruct (steps_ok imencode dumps frame prompt s); lia.
Qed.

Lemma process_video_count_le (video_source prompt : string) (s : state) :
  frame_count (self s)
  <= frame_count (self (snd (process_video imencode dumps video video_source prompt s))).
Proof.
  unfold process_video, try_finally, try_except, cap_release, modify, raise, logger_error.
  destruct (video video_source) as [frames|].
  - pose proof (read_frames_count_le frames prompt s) as H.
    destruct (read_frames imencode dumps frames prompt s) as [[[]|e] s1]; simpl in *.
    + exact H.
    + destruct (is_Exception e); simpl; exact H.
  - simpl. lia.
Qed.

(** C10. The frame counter never goes down: a call of [process_frame]
    leaves it as it is or adds exactly one, [process_video] over any
    source ends with a counter at least as large as it started with, and
    the delivery callback does not touch it.  ([__init__] sets it to 0 when
    the instance is made; nothing else assigns it.) *)
Theorem frame_count_monotone :
  (forall frame prompt s,
     let n' := frame_count (self (snd (process_frame imencode dumps frame prompt s))) in
     n' = frame_count (self s) \/ n' = frame_count (self s) + 1) /\
  (forall video_source prompt s,
     frame_count (self s)
     <= frame_count (self (snd (process_video imencode dumps video video_source prompt s)))) /\
  (forall err s,
     frame_count (self (snd (delivery_report err s))) = frame_count (self s)).
Proof.
  split; [|split].
  - intros frame prompt s n'. subst n'.
    rewrite process_frame_count_step.
    destruct (steps_ok imencode dumps frame prompt s); [right|left]; lia.
  - intros. apply process_video_count_le.
  - intros [e|] s; reflexivity.
Qed.

(** C7, as the code has it.  The counter goes up by one exactly when every
    step of the [try] block went through (the frame encoded, the message
    serialised, the client took the record), and the record is then the
    newest one published, under the key of the old counter.  When any step
    fails, the encode step among them, the instance is unchanged: counter,
    topic and producer queue; an [Exception] is logged and swallowed. *)
Theorem frame_count_incremented_iff_published (frame : ndarray) (prompt : string) (s : state) :
  let s' := snd (process_frame imencode dumps frame prompt s) in
  (frame_count (self s') = frame_count (self s) + 1 <-> steps_ok imencode dumps frame prompt s = true) /\
  (frame_count (self s') = frame_count (self s) <-> steps_ok imencode dumps frame prompt s = false) /\
  (steps_ok imencode dumps frame prompt s = false -> self s' = self s) /\
  (steps_ok imencode dumps frame prompt s = true ->
   exists value,
     Kafka.published (producer (self s'))
     = Kafka.published (producer (self s)) ++ [frame_record s value]) /\
  (forall e, imencode frame = Raise e -> is_Exception e = true ->
     process_frame imencode dumps frame prompt s
     = (Ok tt, add_log s "Error processing frame" e)).
Proof.
  intros s'. subst s'.
  pose proof (process_frame_count_step frame prompt s) as Hstep.
  repeat split.
  - intros H. destruct (steps_ok imencode dumps frame prompt s); [reflexivity|lia].
  - intros H. rewrite H in Hstep. exact Hstep.
  - intros H. destruct (steps_ok imencode dumps frame prompt s); [lia|reflexivity].
  - intros H. rewrite H in Hstep. lia.
  - apply process_frame_failed.
  - intros H. rewrite process_frame_cases. unfold steps_ok in H.
    destruct (imencode frame) as [enc|e]; [|discriminate].
    destruct (dumps _) as [value|e]; [|discriminate].
    exists value. rewrite (produce_ok_iff _ _ H).
    unfold Kafka.published. cbn. rewrite app_assoc. reflexivity.
  - intros e He Hexc. rewrite process_frame_cases, He.
    unfold frame_handler. rewrite Hexc. reflexivity.
Qed.

(** C6, as the code has it.  A source that does not open makes
    [process_video] raise [ValueError] inside its own [try] block: the
    handler logs it, the capture is released, and the call returns
    normally, with the instance untouched and no frame read. *)
Theorem process_video_unopened (video_source prompt : string) (s : state) :
  video video_source = None ->
  process_video imencode dumps video video_source prompt s
  = (Ok tt,
     mkState (self s) (log s ++ [LogError "Error processing video" ValueError])
             (S (released s))).
Proof.
  intros H. unfold process_video. rewrite H. reflexivity.
Qed.

End Counter.

(** ** The run of frame numbers *)

Lemma ids_from_S (n : Z) (k : nat) :
  ids_from n (S k) = n :: ids_from (n + 1) k.
Proof.
  unfold ids_from. cbn [seq map]. f_equal.
  - lia.
  - rewrite <- seq_shift, map_map. apply map_ext. intros i. lia.
Qed.

Section Sequence.

Variable imencode : ndarray -> result (bool * ndarray).
Variable dumps : pyval -> result json.

Hypothesis dumps_total : forall v, exists j, dumps v = Ok j.

(** With an encoder that accepts the frame message, frames that all
    encode and a client with room for one record, the loop publishes one
    record per frame, keyed by the consecutive numbers from the counter
    on, and the counter ends that many higher. *)
Lemma read_frames_sequence (prompt : string) (frames : list ndarray) :
  (forall f, In f frames -> exists enc, imencode f = Ok enc) ->
  forall s,
    (0 < Kafka.queue_limit (producer (self s)))%nat ->
    Kafka.queue (producer (self s)) = [] ->
    let s' := snd (read_frames imencode dumps frames prompt s) in
    fst (read_frames imencode dumps frames prompt s) = Ok tt /\
    frame_count (self s') = frame_count (self s) + Z.of_nat (List.length frames) /\
    Kafka.queue (producer (self s')) = [] /\
    Kafka.queue_limit (producer (self s')) = Kafka.queue_limit (producer (self s)) /\
    map Kafka.key (Kafka.delivered (producer (self s')))
    = map Kafka.key (Kafka.delivered (producer (self s)))
      ++ map str_int (ids_from (frame_count (self s)) (List.length frames)) /\
    log s' = log s.
Proof.
  induction frames as [|frame rest IH]; intros Henc s Hroom Hq s'; subst s'.
  - cbn. rewrite app_nil_r. repeat split; try reflexivity; try assumption. lia.
  - cbn [read_frames]. unfold bind.
    rewrite process_frame_cases.
    destruct (Henc frame (or_introl eq_refl)) as [enc Hencf]. rewrite Hencf.
    destruct (dumps_total (frame_message (tobytes (snd enc)) prompt (frame_count (self s))))
      as [value Hv].
    rewrite Hv.
    rewrite produce_ok_iff by (rewrite Hq; apply Nat.ltb_lt; exact Hroom).
    rewrite producer_flush_eq.
    match goal with |- context [read_frames _ _ rest prompt ?t] => set (s1 := t) end.
    assert (Hroom1 : (0 < Kafka.queue_limit (producer (self s1)))%nat) by exact Hroom.
    assert (Hq1 : Kafka.queue (producer (self s1)) = []) by reflexivity.
    destruct (IH (fun f Hf => Henc f (or_intror Hf)) s1 Hroom1 Hq1)
      as (Hr & Hc & Hq' & Hl & Hk & Hlog).
    repeat split.
    + exact Hr.
    + rewrite Hc. subst s1. cbn [self frame_count flushed List.length]. lia.
    + exact Hq'.
    + rewrite Hl. reflexivity.
    + rewrite Hk. subst s1.
      cbn [self flushed producer Kafka.flush Kafka.delivered Kafka.poll0 Kafka.queue
           frame_count List.length].
      rewrite Hq. cbn [app]. rewrite map_app. cbn [map frame_record Kafka.key].
      rewrite ids_from_S. cbn [map]. rewrite <- app_assoc. reflexivity.
    + rewrite Hlog. reflexivity.
Qed.

End Sequence.

(** ** The encoder of the standard library *)

(** [json.dumps] refuses every frame message: its ['frame'] entry is a
    [bytes] object. *)
Lemma json_dumps_frame_message (frame_bytes : list Byte.byte) (prompt : string) (n : Z) :
  json_dumps (frame_message frame_bytes prompt n) = Raise TypeError.
Proof. reflexivity. Qed.

Lemma steps_ok_json (imencode : ndarray -> result (bool * ndarray))
      (frame : ndarray) (prompt : string) (s : state) :
  steps_ok imencode json_dumps frame prompt s = false.
Proof.
  unfold steps_ok. destruct (imencode frame) as [enc|e]; [|reflexivity].
  rewrite json_dumps_frame_message. reflexivity.
Qed.

(** With [json.dumps] as the encoder no call of [process_frame] changes
    the instance, and the loop publishes nothing. *)
Lemma read_frames_json (imencode : ndarray -> result (bool * ndarray))
      (prompt : string) (frames : list ndarray) :
  forall s,
    let s' := snd (read_frames imencode json_dumps frames prompt s) in
    Kafka.published (producer (self s')) = Kafka.published (producer (self s)) /\
    frame_count (self s') = frame_count (self s).
Proof.
  induction frames as [|frame rest IH]; intros s s'; subst s'.
  - split; reflexivity.
  - cbn [read_frames]. unfold bind.
    pose proof (process_frame_failed imencode json_dumps frame prompt s
                  (steps_ok_json imencode frame prompt s)) as Hself.
    destruct (process_frame imencode json_dumps frame prompt s) as [[[]|e] s1].
    + rewrite producer_flush_eq. cbn [snd] in Hself.
      destruct (IH (flushed s1)) as [Hp Hc]. rewrite Hp, Hc.
      unfold flushed, Kafka.published. cbn. rewrite Hself, app_nil_r. split; reflexivity.
    + cbn [snd] in *. rewrite Hself. split; reflexivity.
Qed.

(** X5. With [json.dumps] as the encoder, as the source has it,
    [process_video] publishes nothing and leaves the counter where it was,
    whatever the source and the codec. *)
Lemma process_video_json (imencode : ndarray -> result (bool * ndarray))
      (video : string -> option (list ndarray)) (video_source prompt : string) (s : state) :
  let s' := snd (process_video imencode json_dumps video video_source prompt s) in
  Kafka.published (producer (self s')) = Kafka.published (producer (self s)) /\
  frame_count (self s') = frame_count (self s).
Proof.
  intros s'. subst s'.
  unfold process_video, try_finally, try_except, cap_release, modify, raise, logger_error.
  destruct (video video_source) as [frames|]; [|split; reflexivity].
  pose proof (read_frames_json imencode prompt frames s) as H. cbv zeta in H.
  destruct (read_frames imencode json_dumps frames prompt s) as [[[]|e] s1]; cbn [snd] in *.
  - exact H.
  - destruct (is_Exception e); exact H.
Qed.

(** ** Runs on concrete sources *)

(** C1, at a source of three frames that all encode, on a fresh instance
    whose client has room: the run publishes no frame message at all, where
    the numbers 0, 1, 2 were due.  Each call of [process_frame] stops at
    [json.dumps], which raises [TypeError] on the [bytes] of the frame; the
    error is logged three times and the counter stays at 0. *)
Theorem process_video_publishes_no_frame :
  let s' := snd (process_video Fixtures.imencode json_dumps Fixtures.video
                               "clip.mp4" "detect car" fresh_state) in
  Fixtures.video "clip.mp4"
  = Some [Fixtures.image2x2; Fixtures.image2x2; Fixtures.image2x2] /\
  (exists enc, Fixtures.imencode Fixtures.image2x2 = Ok enc) /\
  published_keys s' = [] /\
  published_keys s' <> map str_int (ids_from 0 3) /\
  frame_count (self s') = 0 /\
  log s' = [LogError "Error processing frame" TypeError;
            LogError "Error processing frame" TypeError;
            LogError "Error processing frame" TypeError].
Proof.
  cbv zeta. repeat split; try reflexivity.
  - eexists. reflexivity.
  - vm_compute. discriminate.
Qed.

(** The same run with an encoder that accepts [bytes]: the three records
    go out under the keys "0", "1", "2", carry those numbers as their
    [frame_id], and the counter ends at 3. *)
Example process_video_with_bytes_encoder :
  let s' := snd (process_video Fixtures.imencode Fixtures.dumps_bytes_as_array Fixtures.video
                               "clip.mp4" "detect car" fresh_state) in
  published_keys s' = ["0"; "1"; "2"] /\
  map (fun r => match Kafka.value r with
                | JObj [_; _; (_, n)] => Some n
                | _ => None
                end)
      (Kafka.published (producer (self s')))
  = [Some (JInt 0); Some (JInt 1); Some (JInt 2)] /\
  frame_count (self s') = 3 /\
  log s' = [].
Proof. vm_compute. repeat split; reflexivity. Qed.

(** A call in which every step goes through: the counter goes from 0 to
    1 and the record is published under the key "0". *)
Example process_frame_counts_published_frame :
  let s' := snd (process_frame Fixtures.imencode Fixtures.dumps_bytes_as_array
                               Fixtures.image2x2 "detect car" fresh_state) in
  steps_ok Fixtures.imencode Fixtures.dumps_bytes_as_array
           Fixtures.image2x2 "detect car" fresh_state = true /\
  frame_count (self fresh_state) = 0 /\
  frame_count (self s') = 1 /\
  published_keys s' = ["0"].
Proof. vm_compute. repeat split; reflexivity. Qed.

(** A frame that does not encode: the instance is as it was and the error
    is in the log. *)
Example process_frame_encode_failure :
  process_frame Fixtures.imencode Fixtures.dumps_bytes_as_array
                Fixtures.empty_image "detect car" fresh_state
  = (Ok tt, add_log fresh_state "Error processing frame" CvError).
Proof. reflexivity. Qed.

(** C7, against the claim as worded: a frame that encodes does not by that
    alone raise the counter.  With [json.dumps] the call stops at the
    serialisation; with an encoder that accepts the message and a client
    whose queue is full, it stops at [produce] ([BufferError]).  Either way
    the counter is what it was. *)
Lemma encoded_frame_not_counted :
  let full := start (Kafka.fresh 0) in
  (exists enc, Fixtures.imencode Fixtures.image2x2 = Ok enc) /\
  frame_count (self (snd (process_frame Fixtures.imencode json_dumps
                                        Fixtures.image2x2 "detect car" fresh_state)))
  <> frame_count (self fresh_state) + 1 /\
  process_frame Fixtures.imencode Fixtures.dumps_bytes_as_array
                Fixtures.image2x2 "detect car" full
  = (Ok tt, add_log full "Error processing frame" BufferError) /\
  frame_count (self (snd (process_frame Fixtures.imencode Fixtures.dumps_bytes_as_array
                                        Fixtures.image2x2 "detect car" full)))
  <> frame_count (self full) + 1.
Proof.
  cbv zeta. split; [eexists; reflexivity|].
  split; [vm_compute; discriminate|].
  split; [reflexivity|vm_compute; discriminate].
Qed.

(** C6, against the claim as worded: on a source that does not open the
    call returns normally; no exception leaves [process_video]. *)
Lemma unopened_source_returns_normally :
  Fixtures.video "missing.mp4" = None /\
  fst (process_video Fixtures.imencode json_dumps Fixtures.video
                     "missing.mp4" "detect car" fresh_state)
  = Ok tt /\
  forall e,
    fst (process_video Fixtures.imencode json_dumps Fixtures.video
                       "missing.mp4" "detect car" fresh_state)
    <> Raise e.
Proof.
  split; [reflexivity|]. split; [reflexivity|]. intros e. discriminate.
Qed.

(** [process_video_unopened] at the file that is not there. *)
Lemma process_video_unopened_witness :
  Fixtures.video "missing.mp4" = None /\
  process_video Fixtures.imencode json_dumps Fixtures.video
                "missing.mp4" "detect car" fresh_state
  = (Ok tt,
     mkState (self fresh_state)
             (log fresh_state ++ [LogError "Error processing video" ValueError])
             (S (released fresh_state))).
Proof.
  split; [reflexivity|].
  apply (process_video_unopened Fixtures.imencode json_dumps Fixtures.video
           "missing.mp4" "detect car" fresh_state).
  reflexivity.
Defined.

End PreprocessFacts.

(* ================================================================== *)
(** * Properties of the worker *)
(* ================================================================== *)

Module StartupFacts.
Import Inference.

(** Runs the monad's plumbing and the projections of a [world]. *)
Ltac step_world :=
  cbv beta iota zeta
      delta [bind lift get ret raise modify emit getenv read_file write_file try_except];
  cbn [environ files events fst snd].

Section Load.

Variable cipher : Type.
Variable Fernet : string -> result cipher.
Variable decrypt : cipher -> list Byte.byte -> result (list Byte.byte).
Variable YOLO : list Byte.byte -> result detector.
Variable new_consumer : result unit.
Variable new_producer : result Kafka.Producer.
Variable assign : string -> Z -> result unit.
Variable cuda_is_available : bool.

(** With an encrypted path and no key, the [try] block of [_load_model]
    raises right after reading the environment. *)
Lemma load_model_body_missing_key (model_path : string) (w : world) :
  endswith model_path ".enc" = true ->
  key_missing (lookup "MODEL_ENCRYPTION_KEY" (environ w)) = true ->
  load_model_body cipher Fernet decrypt YOLO model_path w
  = (Raise ValueError, after w [Getenv "MODEL_ENCRYPTION_KEY"]).
Proof.
  intros Henc Hkey. unfold load_model_body. rewrite Henc.
  step_world. rewrite Hkey. step_world. reflexivity.
Qed.


(** X8. When the token does not decrypt, [_load_model] raises what [decrypt]
    raised: nothing is written to the temporary file and no model is
    loaded. *)
Lemma load_model_decrypt_fails (model_path key : string) (f : cipher)
      (token : list Byte.byte) (e : exc) (w : world) :
  endswith model_path ".enc" = true ->
  lookup "MODEL_ENCRYPTION_KEY" (environ w) = Some key ->
  key_missing (Some key) = false ->
  Fernet key = Ok f ->
  lookup model_path (files w) = Some token ->
  decrypt f token = Raise e ->
  is_Exception e = true ->
  _load_model cipher Fernet decrypt YOLO model_path w
  = (Raise e,
     after w [Getenv "MODEL_ENCRYPTION_KEY"; FernetNew; OpenRead model_path; FernetDecrypt;
              LoggedError "Error loading model" e]).
Proof.
  intros Henc Hk Hm Hf Ht Hd He.
  unfold _load_model, load_model_body. rewrite Henc.
  step_world. rewrite Hk, Hm. step_world. rewrite Hf. step_world. rewrite Ht.
  step_world. rewrite Hd. step_world. rewrite He.
  unfold after. cbn. rewrite <- !app_assoc. reflexivity.
Qed.

(** When it does, the model is loaded from exactly the bytes [decrypt]
    returned, by way of the temporary file. *)
Lemma load_model_decrypt_ok (model_path key : string) (f : cipher)
      (token plaintext : list Byte.byte) (w : world) :
  endswith model_path ".enc" = true ->
  lookup "MODEL_ENCRYPTION_KEY" (environ w) = Some key ->
  key_missing (Some key) = false ->
  Fernet key = Ok f ->
  lookup model_path (files w) = Some token ->
  decrypt f token = Ok plaintext ->
  (forall e, YOLO plaintext = Raise e -> is_Exception e = false -> False) ->
  exists calls,
    snd (_load_model cipher Fernet decrypt YOLO model_path w)
    = mkWorld (environ w) (("/tmp/model.pt", plaintext) :: files w) (events w ++ calls) /\
    (forall m, YOLO plaintext = Ok m ->
               fst (_load_model cipher Fernet decrypt YOLO model_path w) = Ok m).
Proof.
  intros Henc Hk Hm Hf Ht Hd Hy.
  unfold _load_model, load_model_body. rewrite Henc.
  step_world. rewrite Hk, Hm. step_world. rewrite Hf. step_world. rewrite Ht.
  step_world. rewrite Hd. step_world.
  cbn [lookup String.eqb Ascii.eqb Bool.eqb]. step_world.
  destruct (YOLO plaintext) as [m|e] eqn:HY; step_world.
  - eexists. split.
    + cbn. rewrite <- !app_assoc. reflexivity.
    + intros m' Hm'. injection Hm' as <-. reflexivity.
  - destruct (is_Exception e) eqn:He.
    + eexists. split.
      * cbn. rewrite <- !app_assoc. reflexivity.
      * intros m' Hm'. discriminate.
    + exfalso. exact (Hy e eq_refl He).
Qed.

End Load.



(** Start-up on the machine with the key: the model is decrypted to the
    temporary file and loaded from it; with another key [decrypt] fails
    and so does start-up, the temporary file unwritten. *)
Example init_with_key :
  (exists worker w',
     __init__ string Fixtures.Fernet Fixtures.decrypt Fixtures.YOLO
          Fixtures.new_consumer Fixtures.new_producer Fixtures.assign false
          Fixtures.encrypted_model_path "frames" "detections" 0
          (Fixtures.world_with_key "key")
     = (Ok worker, w') /\
     lookup "/tmp/model.pt" (files w') = Some [Byte.x01; Byte.x02; Byte.x03]) /\
  (exists w',
     __init__ string Fixtures.Fernet Fixtures.decrypt Fixtures.YOLO
          Fixtures.new_consumer Fixtures.new_producer Fixtures.assign false
          Fixtures.encrypted_model_path "frames" "detections" 0
          (Fixtures.world_with_key "other")
     = (Raise InvalidToken, w') /\
     lookup "/tmp/model.pt" (files w') = None).
Proof.
  split.
  - eexists. eexists. split; [lazy; reflexivity|reflexivity].
  - eexists. split; [lazy; reflexivity|reflexivity].
Qed.

End StartupFacts.

Module InferenceFacts.
Import Inference.

(** ** What [json.loads] can and cannot build *)

(** No object built from a JSON document is an [ndarray]. *)
Lemma from_numpy_of_json (j : json) : from_numpy (of_json j) = Raise TypeError.
Proof. destruct j; reflexivity. Qed.

Lemma dict_get_of_json (k : string) (d : list (string * json)) (v : pyval) :
  dict_get k (map (fun kv => (fst kv, of_json (snd kv))) d) = Some v ->
  exists j, v = of_json j.
Proof.
  induction d as [|[k' j] r IH]; cbn [map dict_get fst snd]; intros H.
  - discriminate.
  - destruct (dict_get k (map _ r)) as [w|].
    + apply IH. exact H.
    + destruct (String.eqb k k'); [|discriminate].
      injection H as <-. exists j. reflexivity.
Qed.

(** On anything [json.loads] returns, the [try] block of [process_frame]
    raises before the detector is called: [KeyError] when there is no
    ['frame'] entry, [TypeError] otherwise (from the subscript of an object
    that is not a [dict], or from [torch.from_numpy]). *)
Lemma detect_of_json (doc : json) (s : state) :
  exists e, detect (of_json doc) s = (Raise e, s) /\ (e = KeyError \/ e = TypeError).
Proof.
  unfold detect, bind, lift.
  destruct doc; cbn [of_json getitem];
    try (exists TypeError; split; [reflexivity|right; reflexivity]).
  destruct (dict_get "frame" _) as [v|] eqn:Hget.
  - destruct (dict_get_of_json _ _ _ Hget) as [j ->].
    rewrite from_numpy_of_json.
    exists TypeError; split; [reflexivity|right; reflexivity].
  - exists KeyError; split; [reflexivity|left; reflexivity].
Qed.

Lemma process_frame_of_json (doc : json) (s : state) :
  exists e,
    process_frame (of_json doc) s
    = (Ok PyNone, mkState (self s) (log s ++ [LogError "Error processing frame" e])) /\
    (e = KeyError \/ e = TypeError).
Proof.
  destruct (detect_of_json doc s) as (e & He & Hcase).
  exists e. split; [|exact Hcase].
  unfold process_frame, try_except. rewrite He.
  destruct Hcase as [-> | ->]; reflexivity.
Qed.

Section Run.

Variable str_other : pyval -> string.

(** One message through the inner [try] block of [run]: whatever its
    value, nothing is published and no exception leaves the block; one
    line is logged. *)
Lemma process_message_publishes_nothing (value : option payload) (s : state) :
  exists e,
    process_message str_other value s
    = (Ok tt, mkState (self s) (log s ++ [e])).
Proof.
  unfold process_message, try_except, bind, lift.
  destruct value as [[raw|doc]|]; cbn [json_loads].
  - eexists. reflexivity.
  - destruct (process_frame_of_json doc s) as (e & He & _). rewrite He.
    eexists. cbn. reflexivity.
  - eexists. reflexivity.
Qed.

(** The polling loop publishes nothing, whatever it polls: every message
    ends in the [except] clause of [process_frame] or of [run]. *)
Lemma poll_loop_publishes_nothing (polls : list polled) :
  forall s, self (snd (poll_loop str_other polls s)) = self s.
Proof.
  induction polls as [|p rest IH]; intros s.
  - reflexivity.
  - destruct p as [| |value|e]; cbn [poll_loop].
    + apply IH.
    + unfold bind, logger_error, modify. rewrite IH. reflexivity.
    + unfold bind.
      destruct (process_message_publishes_nothing value s) as (l & ->).
      rewrite IH. reflexivity.
    + reflexivity.
Qed.

Lemma run_publishes_nothing (polls : list polled) (s : state) :
  published (snd (run str_other polls s)) = published s.
Proof.
  unfold run. pose proof (poll_loop_publishes_nothing polls s) as H.
  destruct (poll_loop str_other polls s) as [[[]|e] s1]; cbn [snd] in *.
  - unfold published. rewrite H. reflexivity.
  - destruct (is_KeyboardInterrupt e); unfold published, consumer_close; cbn; rewrite H;
      reflexivity.
Qed.

(** No message makes the worker leave its loop: as long as [poll] itself
    does not raise, [run] is still polling after any sequence of polls. *)
Lemma run_keeps_polling (polls : list polled) :
  (forall e, ~ In (PollRaises e) polls) ->
  forall s, fst (run str_other polls s) = Polling.
Proof.
  intros Hno s.
  assert (H : fst (poll_loop str_other polls s) = Ok tt).
  { revert s. induction polls as [|p rest IH]; intros s; [reflexivity|].
    assert (Hrest : forall e, ~ In (PollRaises e) rest).
    { intros e He. apply (Hno e). right. exact He. }
    destruct p as [| |value|e]; cbn [poll_loop].
    - apply IH, Hrest.
    - unfold bind, logger_error, modify. apply IH, Hrest.
    - unfold bind.
      destruct (process_message_publishes_nothing value s) as (l & ->).
      apply IH, Hrest.
    - exfalso. apply (Hno e). left. reflexivity. }
  unfold run. destruct (poll_loop str_other polls s) as [[[]|e] s1]; cbn [fst] in *.
  - reflexivity.
  - discriminate.
Qed.

End Run.

(** ** The detection message *)

Lemma to_json_list (l : list pyval) :
  to_json (PyList l) = option_map JArr (items_to_json l).
Proof. reflexivity. Qed.

Lemma items_to_json_map {A : Type} (f : A -> pyval) (g : A -> json) (l : list A) :
  (forall a, to_json (f a) = Some (g a)) ->
  items_to_json (map f l) = Some (map g l).
Proof.
  intros H. induction l as [|a r IH]; [reflexivity|].
  cbn [map items_to_json]. fold items_to_json. rewrite H, IH. reflexivity.
Qed.

Lemma to_json_xyxy (b : Boxes) :
  to_json (xyxy_tolist b)
  = Some (JArr (map (fun r => JArr [JFloat (x1 r); JFloat (y1 r); JFloat (x2 r); JFloat (y2 r)])
                    (data b))).
Proof.
  unfold xyxy_tolist. rewrite to_json_list.
  rewrite (items_to_json_map _
             (fun r => JArr [JFloat (x1 r); JFloat (y1 r); JFloat (x2 r); JFloat (y2 r)]));
    reflexivity.
Qed.

Lemma to_json_cls (b : Boxes) :
  to_json (cls_tolist b) = Some (JArr (map (fun r => JFloat (cls r)) (data b))).
Proof.
  unfold cls_tolist. rewrite to_json_list.
  rewrite (items_to_json_map _ (fun r => JFloat (cls r))); reflexivity.
Qed.

Lemma to_json_conf (b : Boxes) :
  to_json (conf_tolist b) = Some (JArr (map (fun r => JFloat (conf r)) (data b))).
Proof.
  unfold conf_tolist. rewrite to_json_list.
  rewrite (items_to_json_map _ (fun r => JFloat (conf r))); reflexivity.
Qed.

(** [process_frame] returns [None] or a dictionary built by
    [detections_of]; it never changes the instance. *)
Lemma process_frame_returns (frame_data : pyval) (s s1 : state) (d : pyval) :
  process_frame frame_data s = (Ok d, s1) ->
  self s1 = self s /\
  ((d = PyNone /\ exists e, fst (detect frame_data s) = Raise e /\
                            log s1 = log s ++ [LogError "Error processing frame" e]) \/
   (exists frame_id b, d = detections_of frame_id b /\
                       getitem frame_data "frame_id" = Ok frame_id /\ s1 = s)).
Proof.
  unfold process_frame, try_except.
  destruct (detect frame_data s) as [[v|e] s0] eqn:Hd.
  - intros H. injection H as <- <-.
    revert Hd. unfold detect, bind, lift, get, ret.
    destruct (getitem frame_data "frame") as [raw|e]; [|discriminate].
    destruct (from_numpy raw) as [frame|e]; [|discriminate].
    destruct (getitem frame_data "prompt") as [prompt|e]; [|discriminate].
    destruct (getitem frame_data "frame_id") as [frame_id|e]; [|discriminate].
    destruct (model (self s) frame prompt) as [results|e]; [|discriminate].
    destruct (first_result results) as [r0|e]; [|discriminate].
    destruct (boxes_of r0) as [b|e]; [|discriminate].
    intros H. injection H as <- <-.
    split; [reflexivity|]. right. exists frame_id, b. repeat split.
  - assert (Hs0 : s0 = s).
    { revert Hd. unfold detect, bind, lift, get, ret.
      destruct (getitem frame_data "frame") as [raw|e0]; [|congruence].
      destruct (from_numpy raw) as [frame|e0]; [|congruence].
      destruct (getitem frame_data "prompt") as [prompt|e0]; [|congruence].
      destruct (getitem frame_data "frame_id") as [frame_id|e0]; [|congruence].
      destruct (model (self s) frame prompt) as [results|e0]; [|congruence].
      destruct (first_result results) as [r0|e0]; [|congruence].
      destruct (boxes_of r0) as [b|e0]; congruence. }
    subst s0. destruct (is_Exception e); [|discriminate].
    unfold bind, logger_error, modify, ret. intros H. injection H as <- <-.
    split; [reflexivity|]. left. split; [reflexivity|]. exists e. split; reflexivity.
Qed.

Lemma detections_lengths (frame_id : pyval) (b : Boxes) :
  len_of (detections_of frame_id b) "boxes" = Ok (List.length (data b)) /\
  len_of (detections_of frame_id b) "labels" = Ok (List.length (data b)) /\
  len_of (detections_of frame_id b) "confidences" = Ok (List.length (data b)).
Proof.
  unfold len_of, detections_of, xyxy_tolist, cls_tolist, conf_tolist.
  cbn. rewrite !length_map. repeat split.
Qed.

Lemma app_one_neq {A : Type} (l : list A) (a : A) : l <> l ++ [a].
Proof.
  intros H. apply (f_equal (@List.length A)) in H.
  rewrite length_app in H. cbn in H. lia.
Qed.

Section Publish.

Variable str_other : pyval -> string.

(** What the [if detections:] statement publishes for a dictionary of
    [process_frame]: at most one record, on the detections topic, keyed by
    [str(frame_id)], whose arrays are as long as the list of boxes. *)
Lemma publish_detections_record (frame_id : pyval) (b : Boxes) (s : state) (r : Kafka.record) :
  published (snd (publish_detections str_other (detections_of frame_id b) s))
  = published s ++ [r] ->
  Kafka.topic r = detections_topic (self s) /\
  Kafka.key r = py_str str_other frame_id /\
  (exists jid, to_json frame_id = Some jid /\
     Kafka.value r
     = JObj [("frame_id", jid);
             ("boxes", JArr (map (fun r => JArr [JFloat (x1 r); JFloat (y1 r);
                                                JFloat (x2 r); JFloat (y2 r)]) (data b)));
             ("labels", JArr (map (fun r => JFloat (cls r)) (data b)));
             ("confidences", JArr (map (fun r => JFloat (conf r)) (data b)))]).
Proof.
  unfold publish_detections, detections_of.
  cbn [truthy List.length Nat.eqb negb].
  unfold bind, lift, get. cbn [getitem dict_get String.eqb Ascii.eqb Bool.eqb].
  unfold json_dumps.
  change (to_json (PyDict [("frame_id", frame_id); ("boxes", xyxy_tolist b);
                           ("labels", cls_tolist b); ("confidences", conf_tolist b)]))
    with (option_map JObj
            match to_json frame_id with
            | Some jx =>
                match
                  match to_json (xyxy_tolist b) with
                  | Some jb =>
                      match
                        match to_json (cls_tolist b) with
                        | Some jl =>
                            match
                              match to_json (conf_tolist b) with
                              | Some jc => Some [("confidences", jc)]
                              | None => None
                              end
                            with
                            | Some jr => Some (("labels", jl) :: jr)
                            | None => None
                            end
                        | None => None
                        end
                      with
                      | Some jr => Some (("boxes", jb) :: jr)
                      | None => None
                      end
                  | None => None
                  end
                with
                | Some jr => Some (("frame_id", jx) :: jr)
                | None => None
                end
            | None => None
            end).
  rewrite to_json_xyxy, to_json_cls, to_json_conf.
  destruct (to_json frame_id) as [jid|]; cbn [option_map].
  - unfold Kafka.produce.
    destruct (Nat.ltb _ _).
    + unfold set_producer, modify. cbn [snd published self producer Kafka.published
                                       Kafka.poll0 Kafka.delivered Kafka.queue].
      unfold published, Kafka.published, Kafka.poll0.
      cbn [self producer Kafka.delivered Kafka.queue]. rewrite app_assoc.
      intros H. apply app_inj_tail in H. destruct H as [_ <-].
      cbn. repeat split. exists jid. split; reflexivity.
    + cbn [snd]. intros H. exfalso. exact (app_one_neq _ _ H).
  - cbn [snd]. intros H. exfalso. exact (app_one_neq _ _ H).
Qed.

End Publish.

(** ** Totality of [process_frame] *)

Lemma getitem_raises (obj : pyval) (k : string) (e : exc) :
  getitem obj k = Raise e -> is_Exception e = true.
Proof.
  destruct obj; cbn; try (intros H; injection H as <-; reflexivity).
  destruct (dict_get k d); [discriminate|].
  intros H; injection H as <-; reflexivity.
Qed.

Lemma from_numpy_raises (obj : pyval) (e : exc) :
  from_numpy obj = Raise e -> is_Exception e = true.
Proof. destruct obj; cbn; intros H; try discriminate; injection H as <-; reflexivity. Qed.

Lemma first_result_raises (results : list Results) (e : exc) :
  first_result results = Raise e -> is_Exception e = true.
Proof. destruct results; cbn; intros H; try discriminate; injection H as <-; reflexivity. Qed.

Lemma boxes_of_raises (r : Results) (e : exc) :
  boxes_of r = Raise e -> is_Exception e = true.
Proof.
  unfold boxes_of. destruct (boxes r); intros H; try discriminate.
  injection H as <-; reflexivity.
Qed.

(** The [try] block reads the state and never writes it; what it raises
    is an [Exception] as soon as what the detector raises is one. *)
Lemma detect_outcome (frame_data : pyval) (s : state) :
  snd (detect frame_data s) = s /\
  ((forall frame prompt e, model (self s) frame prompt = Raise e -> is_Exception e = true) ->
   forall e, fst (detect frame_data s) = Raise e -> is_Exception e = true).
Proof.
  unfold detect, bind, lift, get, ret.
  destruct (getitem frame_data "frame") as [raw|e0] eqn:H1;
    [|split; [reflexivity|intros _ e H; injection H as <-; eapply getitem_raises; eassumption]].
  destruct (from_numpy raw) as [frame|e0] eqn:H2;
    [|split; [reflexivity|intros _ e H; injection H as <-; eapply from_numpy_raises; eassumption]].
  destruct (getitem frame_data "prompt") as [prompt|e0] eqn:H3;
    [|split; [reflexivity|intros _ e H; injection H as <-; eapply getitem_raises; eassumption]].
  destruct (getitem frame_data "frame_id") as [frame_id|e0] eqn:H4;
    [|split; [reflexivity|intros _ e H; injection H as <-; eapply getitem_raises; eassumption]].
  destruct (model (self s) frame prompt) as [results|e0] eqn:H5;
    [|split; [reflexivity|intros Hm e H; injection H as <-; eapply Hm; eassumption]].
  destruct (first_result results) as [r0|e0] eqn:H6;
    [|split; [reflexivity|intros _ e H; injection H as <-; eapply first_result_raises; eassumption]].
  destruct (boxes_of r0) as [b|e0] eqn:H7;
    [|split; [reflexivity|intros _ e H; injection H as <-; eapply boxes_of_raises; eassumption]].
  split; [reflexivity|]. intros _ e H. discriminate.
Qed.

Section Claims.

Variable str_other : pyval -> string.

(** C2. A detection message has as many boxes as labels as confidences:
    in the dictionary [process_frame] returns, and in the record the
    [if detections:] statement of [run] then publishes. *)
Theorem detections_lengths_agree (frame_data : pyval) (s s1 : state) (d : pyval) :
  process_frame frame_data s = (Ok d, s1) ->
  (d <> PyNone ->
   exists n, len_of d "boxes" = Ok n /\
             len_of d "labels" = Ok n /\
             len_of d "confidences" = Ok n) /\
  (forall r,
     published (snd (publish_detections str_other d s1)) = published s1 ++ [r] ->
     exists n, json_len_of (Kafka.value r) "boxes" = Some n /\
               json_len_of (Kafka.value r) "labels" = Some n /\
               json_len_of (Kafka.value r) "confidences" = Some n).
Proof.
  intros H. destruct (process_frame_returns _ _ _ _ H) as [_ [[-> _]|(fid & b & -> & _ & _)]].
  - split; [intros Hn; contradiction|].
    intros r Hr. exfalso. exact (app_one_neq _ _ Hr).
  - split.
    + intros _. exists (List.length (data b)). apply detections_lengths.
    + intros r Hr.
      destruct (publish_detections_record str_other fid b s1 r Hr) as (_ & _ & jid & _ & ->).
      exists (List.length (data b)). cbn. rewrite !length_map. repeat split.
Qed.

(** C9. [process_frame] always returns: whatever [frame_data] is, and
    whenever what the detector raises is an [Exception], the call ends
    with a value and leaves the instance as it was; the value is [None]
    on every path where the [try] block raised, with the error logged.
    And the [if detections:] statement publishes only for a value that is
    true, so never for [None]. *)
Theorem process_frame_total (frame_data : pyval) (s : state) :
  (forall frame prompt e, model (self s) frame prompt = Raise e -> is_Exception e = true) ->
  (exists d s1,
     process_frame frame_data s = (Ok d, s1) /\
     self s1 = self s /\
     (forall e, fst (detect frame_data s) = Raise e ->
                d = PyNone /\ log s1 = log s ++ [LogError "Error processing frame" e])) /\
  (forall d s0,
     published (snd (publish_detections str_other d s0)) <> published s0 ->
     truthy d = true /\ d <> PyNone).
Proof.
  intros Hm. split.
  - destruct (detect_outcome frame_data s) as [Hs Hexc]. specialize (Hexc Hm).
    unfold process_frame, try_except.
    destruct (detect frame_data s) as [[v|e] s0]; cbn [fst snd] in *; subst s0.
    + exists v, s. split; [reflexivity|]. split; [reflexivity|].
      intros e' He'. discriminate.
    + rewrite (Hexc e eq_refl). eexists. eexists. split; [reflexivity|].
      split; [reflexivity|]. intros e' H. injection H as <-. split; reflexivity.
  - intros d s0 H. unfold publish_detections in H.
    destruct (truthy d) eqn:Ht.
    + split; [reflexivity|]. intros ->. discriminate.
    + exfalso. apply H. reflexivity.
Qed.

(** C5, at the two-message sequence: a payload that is not JSON, then the
    frame message of number 7, whatever JSON value carries its image and
    whatever the detector is.  The worker takes both messages and is back
    at [poll], but it has published nothing, where one detection message
    was due: the first message stops at [json.loads], the second at
    [torch.from_numpy], which no object built by [json.loads] passes. *)
Theorem malformed_then_wellformed_publishes_nothing (m : detector) (raw : string) (frame : json) :
  let polls := [PollMessage (Some (NotJson raw));
                PollMessage (Some (JsonText (Fixtures.frame7_json frame)))] in
  run str_other polls (Fixtures.worker m)
  = (Polling,
     mkState (self (Fixtures.worker m))
             [LogError "Error processing message" JSONDecodeError;
              LogError "Error processing frame" TypeError]) /\
  published (snd (run str_other polls (Fixtures.worker m))) = [] /\
  List.length (published (snd (run str_other polls (Fixtures.worker m)))) <> 1%nat.
Proof.
  cbv zeta.
  assert (H : run str_other
                [PollMessage (Some (NotJson raw));
                 PollMessage (Some (JsonText (Fixtures.frame7_json frame)))]
                (Fixtures.worker m)
              = (Polling,
                 mkState (self (Fixtures.worker m))
                         [LogError "Error processing message" JSONDecodeError;
                          LogError "Error processing frame" TypeError])).
  { unfold run, poll_loop, process_message, try_except, bind, lift, process_frame, detect,
      try_except, bind, lift.
    cbn [json_loads logger_error modify is_Exception of_json Fixtures.frame7_json map fst snd
         getitem dict_get String.eqb Ascii.eqb Bool.eqb].
    rewrite from_numpy_of_json. reflexivity. }
  rewrite H. split; [reflexivity|]. split; [reflexivity|]. cbn. discriminate.
Qed.

(** C8, at the end-to-end input: the frame message of number 7 and the
    stub detector.  Nothing reaches the detections topic, where the record
    keyed "7" was due; the message ends in the [except] clause of
    [process_frame] with the [TypeError] of [torch.from_numpy]. *)
Theorem frame7_detection_not_published (frame : json) :
  let s' := snd (run str_other [PollMessage (Some (JsonText (Fixtures.frame7_json frame)))]
                     (Fixtures.worker Fixtures.stub_detector)) in
  published s' = [] /\
  published s' <> [Fixtures.detection7_record] /\
  log s' = [LogError "Error processing frame" TypeError].
Proof.
  cbv zeta.
  assert (H : run str_other [PollMessage (Some (JsonText (Fixtures.frame7_json frame)))]
                  (Fixtures.worker Fixtures.stub_detector)
              = (Polling,
                 mkState (self (Fixtures.worker Fixtures.stub_detector))
                         [LogError "Error processing frame" TypeError])).
  { unfold run, poll_loop, process_message, try_except, bind, lift, process_frame, detect,
      try_except, bind, lift.
    cbn [json_loads logger_error modify is_Exception of_json Fixtures.frame7_json map fst snd
         getitem dict_get String.eqb Ascii.eqb Bool.eqb].
    rewrite from_numpy_of_json. reflexivity. }
  rewrite H. split; [reflexivity|]. split; [|reflexivity]. cbn. discriminate.
Qed.

End Claims.

(** ** Calls on concrete inputs *)

(** [detections_lengths_agree] at the message of frame 7, its image
    decoded, with the stub detector. *)
Lemma detections_lengths_agree_witness :
  process_frame Fixtures.frame7_object (Fixtures.worker Fixtures.stub_detector)
  = (Ok Fixtures.detections7, Fixtures.worker Fixtures.stub_detector) /\
  (Fixtures.detections7 <> PyNone ->
   exists n, len_of Fixtures.detections7 "boxes" = Ok n /\
             len_of Fixtures.detections7 "labels" = Ok n /\
             len_of Fixtures.detections7 "confidences" = Ok n) /\
  (forall r,
     published (snd (publish_detections Fixtures.str_other Fixtures.detections7
                                        (Fixtures.worker Fixtures.stub_detector)))
     = published (Fixtures.worker Fixtures.stub_detector) ++ [r] ->
     exists n, json_len_of (Kafka.value r) "boxes" = Some n /\
               json_len_of (Kafka.value r) "labels" = Some n /\
               json_len_of (Kafka.value r) "confidences" = Some n).
Proof.
  split; [reflexivity|].
  apply (detections_lengths_agree Fixtures.str_other Fixtures.frame7_object
           (Fixtures.worker Fixtures.stub_detector)
           (Fixtures.worker Fixtures.stub_detector) Fixtures.detections7).
  reflexivity.
Defined.

(** The lengths for 0, 1 and 5 detections. *)
Example detections_lengths_0_1_5 :
  forall n, In n [0%nat; 1%nat; 5%nat] ->
  exists d,
    fst (process_frame Fixtures.frame7_object (Fixtures.worker (Fixtures.detector_of n)))
    = Ok d /\
    len_of d "boxes" = Ok n /\
    len_of d "labels" = Ok n /\
    len_of d "confidences" = Ok n.
Proof.
  intros n [<-|[<-|[<-|[]]]]; eexists; repeat split.
Qed.

(** [process_frame_total] at the same message with a detector that
    raises [RuntimeError]. *)
Lemma process_frame_total_witness :
  (forall frame prompt e,
     model (self (Fixtures.worker Fixtures.failing_detector)) frame prompt = Raise e ->
     is_Exception e = true) /\
  (exists d s1,
     process_frame Fixtures.frame7_object (Fixtures.worker Fixtures.failing_detector)
     = (Ok d, s1) /\
     self s1 = self (Fixtures.worker Fixtures.failing_detector) /\
     (forall e,
        fst (detect Fixtures.frame7_object (Fixtures.worker Fixtures.failing_detector))
        = Raise e ->
        d = PyNone /\
        log s1 = log (Fixtures.worker Fixtures.failing_detector)
                 ++ [LogError "Error processing frame" e])) /\
  (forall d s0,
     published (snd (publish_detections Fixtures.str_other d s0)) <> published s0 ->
     truthy d = true /\ d <> PyNone).
Proof.
  assert (H : forall frame prompt e,
             model (self (Fixtures.worker Fixtures.failing_detector)) frame prompt = Raise e ->
             is_Exception e = true).
  { intros frame prompt e He. cbn in He. injection He as <-. reflexivity. }
  split; [exact H|].
  exact (process_frame_total Fixtures.str_other Fixtures.frame7_object
           (Fixtures.worker Fixtures.failing_detector) H).
Defined.

(** What [process_frame] returns on inputs that fail: a message without
    its keys, an object that is not a [dict], a frame that is [bytes] (as
    the docstring has it), a failing detector, a detector without result. *)
Example process_frame_failures :
  fst (process_frame (PyDict [("prompt", PyStr "detect car"); ("frame_id", PyInt 7)])
                     (Fixtures.worker Fixtures.stub_detector)) = Ok PyNone /\
  fst (process_frame (PyDict [("frame", PyNdarray Fixtures.image2x2); ("frame_id", PyInt 7)])
                     (Fixtures.worker Fixtures.stub_detector)) = Ok PyNone /\
  fst (process_frame (PyDict [("frame", PyNdarray Fixtures.image2x2);
                              ("prompt", PyStr "detect car")])
                     (Fixtures.worker Fixtures.stub_detector)) = Ok PyNone /\
  fst (process_frame (PyList []) (Fixtures.worker Fixtures.stub_detector)) = Ok PyNone /\
  fst (process_frame (PyDict [("frame", PyBytes [Byte.x00]); ("prompt", PyStr "detect car");
                              ("frame_id", PyInt 7)])
                     (Fixtures.worker Fixtures.stub_detector)) = Ok PyNone /\
  fst (process_frame Fixtures.frame7_object (Fixtures.worker Fixtures.failing_detector))
  = Ok PyNone /\
  fst (process_frame Fixtures.frame7_object (Fixtures.worker (fun _ _ => Ok []))) = Ok PyNone.
Proof. repeat split. Qed.

(** Called on a message object that holds the decoded image, the worker
    assembles the expected detections, and the [if detections:] statement
    publishes the expected record under the key "7". *)
Example frame7_direct_call :
  process_frame Fixtures.frame7_object (Fixtures.worker Fixtures.stub_detector)
  = (Ok Fixtures.detections7, Fixtures.worker Fixtures.stub_detector) /\
  published (snd (publish_detections Fixtures.str_other Fixtures.detections7
                                     (Fixtures.worker Fixtures.stub_detector)))
  = [Fixtures.detection7_record].
Proof. split; reflexivity. Qed.

End InferenceFacts.

(* ================================================================== *)
(** * The two entry points: [main] of each program *)
(* ================================================================== *)

Module Os.

(** [os.getenv(name)] and [os.getenv(name, default)] on an environment. *)
Definition getenv (env : list (string * string)) (name : string) : option string :=
  Inference.lookup name env.

Definition getenv_default (env : list (string * string)) (name default : string) : string :=
  match Inference.lookup name env with
  | Some v => v
  | None => default
  end.

End Os.

Module PreprocessMain.
Import Preprocess.

(** The [kafka_config] dictionary of [main]: the broker address and the
    keystore password come from the environment ([None] when unset), the
    rest is fixed. *)
Definition kafka_config (env : list (string * string)) : list (string * option string) :=
  [("bootstrap.servers", Os.getenv env "KAFKA_BOOTSTRAP_SERVERS");
   ("security.protocol", Some "SSL");
   ("ssl.ca.location", Some "/security/kafka.crt");
   ("ssl.keystore.location", Some "/security/kafka.key");
   ("ssl.keystore.password", Os.getenv env "KAFKA_SSL_KEYSTORE_PASSWORD")].

Section Main.

Variable imencode : ndarray -> result (bool * ndarray).
Variable dumps : pyval -> result json.
Variable video : string -> option (list ndarray).

(** [Producer(kafka_config)]: the client, or what the constructor raises. *)
Variable Producer : list (string * option string) -> result Kafka.Producer.

(** [main()]: what it returns or raises, and the process it leaves (none
    when the instance could not be built). *)
Definition main (env : list (string * string)) : result unit * option state :=
  match Producer (kafka_config env) with
  | Raise e => (Raise e, None)
  | Ok p =>
      let preprocessor := start p in
      let video_source := Os.getenv_default env "VIDEO_SOURCE" "0" in
      let detection_prompt :=
        Os.getenv_default env "DETECTION_PROMPT" "detect person, car, bike" in
      match process_video imencode dumps video video_source detection_prompt preprocessor with
      | (r, s) => (r, Some s)
      end
  end.

End Main.

End PreprocessMain.

(* ================================================================== *)
(** * More on the producer *)
(* ================================================================== *)

Module PreprocessMore.
Import Preprocess.
Import PreprocessFacts.

(** A library call whose failures are all [Exception]s (no interrupt
    arrives while it runs). *)
Definition raises_exceptions {A B : Type} (f : A -> result B) : Prop :=
  forall a e, f a = Raise e -> is_Exception e = true.

(** The state after a call of [process_frame] in which every step went
    through, [value] being the serialised message. *)
Definition frame_published (s : state) (value : json) : state :=
  mkState
    (mkVideoPreprocessor
       (Kafka.mkProducer (Kafka.queue_limit (producer (self s)))
                         (Kafka.queue (producer (self s)) ++ [frame_record s value])
                         (Kafka.delivered (producer (self s))))
       (frames_topic (self s)) (frame_rate (self s)) (frame_count (self s) + 1))
    (log s) (released s).

(** The numbering invariant of an instance: the counter is the number of
    records its client has accepted, the records are keyed "0", "1", ...
    in the order they were accepted, and all went to the instance's topic. *)
Definition numbered (s : state) : Prop :=
  frame_count (self s) = Z.of_nat (List.length (Kafka.published (producer (self s)))) /\
  published_keys s
  = map str_int (ids_from 0 (List.length (Kafka.published (producer (self s))))) /\
  Forall (fun r => Kafka.topic r = frames_topic (self s))
         (Kafka.published (producer (self s))).

Section Loop.

Variable imencode : ndarray -> result (bool * ndarray).
Variable dumps : pyval -> result json.
Variable video : string -> option (list ndarray).

(** The three ways a call of [process_frame] can end. *)
Lemma process_frame_outcomes (frame : ndarray) (prompt : string) (s : state) :
  (exists value,
     steps_ok imencode dumps frame prompt s = true /\
     process_frame imencode dumps frame prompt s = (Ok tt, frame_published s value)) \/
  (exists e,
     is_Exception e = true /\
     process_frame imencode dumps frame prompt s
     = (Ok tt, add_log s "Error processing frame" e)) \/
  (exists e,
     is_Exception e = false /\
     process_frame imencode dumps frame prompt s = (Raise e, s) /\
     (imencode frame = Raise e \/ exists v, dumps v = Raise e)).
Proof.
  rewrite process_frame_cases. unfold steps_ok, frame_handler.
  destruct (imencode frame) as [enc|e] eqn:Henc.
  - destruct (dumps _) as [value|e] eqn:Hd.
    + unfold Kafka.produce.
      destruct (Nat.ltb _ _) eqn:Hroom.
      * left. exists value. split; reflexivity.
      * right. left. exists BufferError. split; reflexivity.
    + destruct (is_Exception e) eqn:He.
      * right. left. exists e. split; [assumption|reflexivity].
      * right. right. exists e. repeat split; try assumption.
        right. eexists. exact Hd.
  - destruct (is_Exception e) eqn:He.
    + right. left. exists e. split; [assumption|reflexivity].
    + right. right. exists e. repeat split; try assumption. left. reflexivity.
Qed.

Lemma read_frames_released (prompt : string) (frames : list ndarray) :
  forall s, released (snd (read_frames imencode dumps frames prompt s)) = released s.
Proof.
  induction frames as [|frame rest IH]; intros s; [reflexivity|].
  cbn [read_frames]. unfold bind.
  destruct (process_frame_outcomes frame prompt s)
    as [(value & _ & ->)|[(e & _ & ->)|(e & _ & -> & _)]].
  - rewrite producer_flush_eq, IH. reflexivity.
  - rewrite producer_flush_eq, IH. reflexivity.
  - reflexivity.
Qed.

(** The state a source that does not open leaves. *)
Lemma process_video_unopened_state (video_source prompt : string) (s : state) :
  video video_source = None ->
  snd (process_video imencode dumps video video_source prompt s)
  = mkState (self s) (log s ++ [LogError "Error processing video" ValueError])
            (S (released s)).
Proof. intros H. unfold process_video. rewrite H. reflexivity. Qed.


Lemma read_frames_returns (prompt : string) (frames : list ndarray) :
  raises_exceptions imencode ->
  raises_exceptions dumps ->
  forall s, fst (read_frames imencode dumps frames prompt s) = Ok tt.
Proof.
  intros Hi Hd. induction frames as [|frame rest IH]; intros s; [reflexivity|].
  cbn [read_frames]. unfold bind.
  destruct (process_frame_outcomes frame prompt s)
    as [(value & _ & ->)|[(e & _ & ->)|(e & He & _ & [Hr|[v Hr]])]].
  - rewrite producer_flush_eq. apply IH.
  - rewrite producer_flush_eq. apply IH.
  - rewrite (Hi _ _ Hr) in He. discriminate.
  - rewrite (Hd _ _ Hr) in He. discriminate.
Qed.

(** X2. No error of a frame or of the source leaves [process_video]: as
    long as what the codec and the encoder raise are [Exception]s, the
    call returns normally for every source, one that does not open
    included. *)
Theorem process_video_returns_normally (video_source prompt : string) (s : state) :
  raises_exceptions imencode ->
  raises_exceptions dumps ->
  fst (process_video imencode dumps video video_source prompt s) = Ok tt.
Proof.
  intros Hi Hd.
  unfold process_video, try_finally, try_except, cap_release, modify, raise, logger_error.
  destruct (video video_source) as [frames|]; [|reflexivity].
  pose proof (read_frames_returns prompt frames Hi Hd s) as H.
  destruct (read_frames imencode dumps frames prompt s) as [[[]|e] s1]; cbn [fst] in *.
  - reflexivity.
  - discriminate.
Qed.



Lemma ids_from_snoc (n : Z) (k : nat) :
  ids_from n (S k) = ids_from n k ++ [n + Z.of_nat k].
Proof. unfold ids_from. rewrite seq_S, map_app. reflexivity. Qed.

Lemma numbered_flushed (s : state) : numbered s -> numbered (flushed s).
Proof.
  unfold numbered, published_keys, flushed, Kafka.published, Kafka.flush. cbn.
  rewrite !app_nil_r. intros H. exact H.
Qed.

Lemma numbered_add_log (s : state) (text : string) (e : exc) :
  numbered s -> numbered (add_log s text e).
Proof. intros H. exact H. Qed.

Lemma numbered_published (s : state) (value : json) :
  numbered s -> numbered (frame_published s value).
Proof.
  unfold numbered, published_keys. intros (Hc & Hk & Ht).
  assert (Hp : Kafka.published (producer (self (frame_published s value)))
               = Kafka.published (producer (self s)) ++ [frame_record s value]).
  { unfold frame_published, Kafka.published.
    cbn [self producer Kafka.delivered Kafka.queue]. apply app_assoc. }
  rewrite Hp.
  change (frame_count (self (frame_published s value))) with (frame_count (self s) + 1).
  change (frames_topic (self (frame_published s value))) with (frames_topic (self s)).
  rewrite length_app, map_app. cbn [List.length map].
  rewrite Nat.add_1_r, ids_from_snoc, map_app. cbn [map].
  split; [lia|]. split.
  - rewrite <- Hk. unfold frame_record. cbn [Kafka.key]. rewrite Hc. reflexivity.
  - apply Forall_app. split; [exact Ht|]. constructor; [reflexivity|constructor].
Qed.

Lemma numbered_process_frame (frame : ndarray) (prompt : string) (s : state) :
  numbered s -> numbered (snd (process_frame imencode dumps frame prompt s)).
Proof.
  intros H.
  destruct (process_frame_outcomes frame prompt s)
    as [(value & _ & ->)|[(e & _ & ->)|(e & _ & -> & _)]]; cbn [snd].
  - apply numbered_published, H.
  - apply numbered_add_log, H.
  - exact H.
Qed.

Lemma numbered_read_frames (prompt : string) (frames : list ndarray) :
  forall s, numbered s -> numbered (snd (read_frames imencode dumps frames prompt s)).
Proof.
  induction frames as [|frame rest IH]; intros s H; [exact H|].
  cbn [read_frames]. unfold bind.
  pose proof (numbered_process_frame frame prompt s H) as H1.
  destruct (process_frame imencode dumps frame prompt s) as [[[]|e] s1]; cbn [snd] in *.
  - rewrite producer_flush_eq. apply IH, numbered_flushed, H1.
  - exact H1.
Qed.

(** X4. The numbering of an instance holds through every failure.  On a
    new instance, and from then on after every call of [process_frame]
    and of [process_video], the counter is the number of records the
    client has accepted, and those records carry the keys "0", "1", ... in
    that order, on the instance's topic: a frame that is dropped uses up no
    number, and no number is given twice. *)
Theorem numbering_is_invariant :
  (forall limit, numbered (start (Kafka.fresh limit))) /\
  (forall frame prompt s,
     numbered s -> numbered (snd (process_frame imencode dumps frame prompt s))) /\
  (forall video_source prompt s,
     numbered s ->
     numbered (snd (process_video imencode dumps video video_source prompt s))).
Proof.
  split; [|split].
  - intros limit. repeat split. constructor.
  - apply numbered_process_frame.
  - intros video_source prompt s H.
    unfold process_video, try_finally, try_except, cap_release, modify, raise, logger_error.
    destruct (video video_source) as [frames|]; [|exact H].
    pose proof (numbered_read_frames prompt frames s H) as H1.
    destruct (read_frames imencode dumps frames prompt s) as [[[]|e] s1]; cbn [snd] in *.
    + exact H1.
    + destruct (is_Exception e); exact H1.
Qed.

(** How [process_video] ends when only [Exception]s are raised. *)
Lemma process_video_outcome (video_source prompt : string) (s : state) :
  raises_exceptions imencode ->
  raises_exceptions dumps ->
  fst (process_video imencode dumps video video_source prompt s) = Ok tt /\
  released (snd (process_video imencode dumps video video_source prompt s))
  = S (released s).
Proof.
  intros Hi Hd.
  unfold process_video, try_finally, try_except, cap_release, modify, raise, logger_error.
  destruct (video video_source) as [frames|]; [|split; reflexivity].
  pose proof (read_frames_returns prompt frames Hi Hd s) as H.
  pose proof (read_frames_released prompt frames s) as Hrel.
  destruct (read_frames imencode dumps frames prompt s) as [[[]|e] s1]; cbn [fst snd] in *.
  - split; [reflexivity|]. cbn. rewrite Hrel. reflexivity.
  - discriminate.
Qed.

End Loop.

Section MainFacts.

Variable imencode : ndarray -> result (bool * ndarray).
Variable dumps : pyval -> result json.
Variable video : string -> option (list ndarray).
Variable Producer : list (string * option string) -> result Kafka.Producer.

(** X6. The producer's [main] ends normally whenever the client can be
    built, even when the video source does not open: the capture is
    released once, and for a source that does not open the only trace is
    the line "Error processing video" in the log, the instance being as
    [__init__] made it.  The source is [VIDEO_SOURCE], "0" when unset. *)
Theorem main_returns_normally (env : list (string * string)) (p : Kafka.Producer) :
  raises_exceptions imencode ->
  raises_exceptions dumps ->
  Producer (PreprocessMain.kafka_config env) = Ok p ->
  exists s,
    PreprocessMain.main imencode dumps video Producer env = (Ok tt, Some s) /\
    released s = 1%nat /\
    (video (Os.getenv_default env "VIDEO_SOURCE" "0") = None ->
     s = mkState (__init__ p "frames" 30)
                 [LogError "Error processing video" ValueError] 1).
Proof.
  intros Hi Hd Hp. unfold PreprocessMain.main. rewrite Hp.
  set (src := Os.getenv_default env "VIDEO_SOURCE" "0").
  set (prompt := Os.getenv_default env "DETECTION_PROMPT" "detect person, car, bike").
  destruct (process_video_outcome imencode dumps video src prompt (start p) Hi Hd)
    as [Hr Hrel].
  pose proof (process_video_unopened_state imencode dumps video src prompt (start p)) as Hun.
  destruct (process_video imencode dumps video src prompt (start p)) as [r s1];
    cbn [fst snd] in *.
  subst r. exists s1. split; [reflexivity|]. split; [exact Hrel|].
  intros Hnone. apply Hun. exact Hnone.
Qed.

End MainFacts.

(** ** On concrete inputs *)

Lemma json_dumps_raises_exceptions : raises_exceptions json_dumps.
Proof.
  intros v e. unfold json_dumps. destruct (to_json v); intros H; [discriminate|].
  injection H as <-. reflexivity.
Qed.

Lemma fixture_imencode_raises_exceptions : raises_exceptions Fixtures.imencode.
Proof.
  intros frame e. unfold Fixtures.imencode. destruct (buf frame); intros H; [|discriminate].
  injection H as <-. reflexivity.
Qed.

(** [process_video_returns_normally] at the source of three frames. *)
Lemma process_video_returns_normally_witness :
  raises_exceptions Fixtures.imencode /\
  raises_exceptions json_dumps /\
  fst (process_video Fixtures.imencode json_dumps Fixtures.video
                     "clip.mp4" "detect car" fresh_state) = Ok tt.
Proof.
  split; [exact fixture_imencode_raises_exceptions|].
  split; [exact json_dumps_raises_exceptions|].
  exact (process_video_returns_normally Fixtures.imencode json_dumps Fixtures.video
           "clip.mp4" "detect car" fresh_state
           fixture_imencode_raises_exceptions json_dumps_raises_exceptions).
Defined.


(** A client constructor that succeeds. *)
Definition producer_stub (config : list (string * option string)) : result Kafka.Producer :=
  Ok (Kafka.fresh 1000).

(** [main_returns_normally] in an empty environment: the source is "0",
    which does not open. *)
Lemma main_returns_normally_witness :
  producer_stub (PreprocessMain.kafka_config []) = Ok (Kafka.fresh 1000) /\
  exists s,
    PreprocessMain.main Fixtures.imencode json_dumps Fixtures.video producer_stub []
    = (Ok tt, Some s) /\
    released s = 1%nat /\
    (Fixtures.video (Os.getenv_default [] "VIDEO_SOURCE" "0") = None ->
     s = mkState (__init__ (Kafka.fresh 1000) "frames" 30)
                 [LogError "Error processing video" ValueError] 1).
Proof.
  split; [reflexivity|].
  exact (main_returns_normally Fixtures.imencode json_dumps Fixtures.video producer_stub
           [] (Kafka.fresh 1000)
           fixture_imencode_raises_exceptions json_dumps_raises_exceptions eq_refl).
Defined.

End PreprocessMore.

(* ================================================================== *)
(** * The worker's [main] *)
(* ================================================================== *)

Module InferenceMain.
Import Inference.

(** [os.getenv(name, default)] at start-up. *)
Definition getenv_default (name default : string) : M world string :=
  v <- getenv name ;;
  ret (match v with Some x => x | None => default end).

(** How [main] ends: start-up raised, or the worker ran and stands as
    [run] left it. *)
Inductive main_outcome : Type :=
| StartupFailed (e : exc)
| Ran (outcome : run_outcome) (s : state).

Section Main.

Variable cipher : Type.
Variable Fernet : string -> result cipher.
Variable decrypt : cipher -> list Byte.byte -> result (list Byte.byte).
Variable YOLO : list Byte.byte -> result detector.
Variable new_consumer : result unit.
Variable new_producer : result Kafka.Producer.
Variable assign : string -> Z -> result unit.
Variable cuda_is_available : bool.
Variable str_other : pyval -> string.

(** [int(text)]: the number a string denotes, or [ValueError]. *)
Variable int_of_str : string -> result Z.

(** [main] up to the construction of the worker: the two environment
    reads of [kafka_config], the partition, the model path and
    [YOLOWorldInference(...)] with the default topics. *)
Definition build_worker : M world YOLOWorldInference :=
  getenv "KAFKA_BOOTSTRAP_SERVERS" ;;
  getenv "KAFKA_SSL_KEYSTORE_PASSWORD" ;;
  text <- getenv_default "KAFKA_PARTITION" "0" ;;
  partition <- lift (int_of_str text) ;;
  model_path <- getenv_default "MODEL_PATH" "/models/yolo_world_m.pt.enc" ;;
  __init__ cipher Fernet decrypt YOLO new_consumer new_producer assign cuda_is_available
           model_path "frames" "detections" partition.

(** [main()], the worker then running over the given polls. *)
Definition main (polls : list (polled)) (w : world) : main_outcome * world :=
  match build_worker w with
  | (Raise e, w') => (StartupFailed e, w')
  | (Ok worker, w') =>
      match run str_other polls (mkState worker []) with
      | (outcome, s) => (Ran outcome s, w')
      end
  end.

End Main.

End InferenceMain.

(* ================================================================== *)
(** * More on start-up *)
(* ================================================================== *)

Module StartupMore.
Import Inference.
Import StartupFacts.

(** ** [str.endswith] *)

Lemma substring_all (s : string) : substring 0 (String.length s) s = s.
Proof. induction s as [|c s IH]; cbn; [reflexivity|]. rewrite IH. reflexivity. Qed.

Lemma substring_split (k : nat) :
  forall s, (k <= String.length s)%nat ->
            s = (substring 0 k s ++ substring k (String.length s - k) s)%string.
Proof.
  induction k as [|k IH]; intros s Hk.
  - rewrite Nat.sub_0_r, substring_all. destruct s; reflexivity.
  - destruct s as [|c s]; cbn in Hk; [lia|].
    cbn [substring String.length Nat.sub append]. f_equal. apply IH. lia.
Qed.

Lemma substring_append (p suffix : string) :
  substring (String.length p) (String.length suffix) (p ++ suffix)%string = suffix.
Proof.
  induction p as [|c p IH]; cbn [String.length append].
  - apply substring_all.
  - cbn [substring]. destruct (String.length suffix); exact IH.
Qed.

Lemma length_append (p q : string) :
  String.length (p ++ q)%string = (String.length p + String.length q)%nat.
Proof. induction p as [|c p IH]; cbn; [reflexivity|]. rewrite IH. reflexivity. Qed.

(** [s.endswith(suffix)] holds exactly of the strings [p + suffix]. *)
Lemma endswith_iff (s suffix : string) :
  endswith s suffix = true <-> exists p, s = (p ++ suffix)%string.
Proof.
  unfold endswith. split.
  - intros H. apply andb_prop in H. destruct H as [Hle Heq].
    apply Nat.leb_le in Hle. apply String.eqb_eq in Heq.
    exists (substring 0 (String.length s - String.length suffix) s).
    assert (Hk : (String.length s - String.length suffix <= String.length s)%nat) by lia.
    pose proof (substring_split _ s Hk) as Hs.
    replace (String.length s - (String.length s - String.length suffix))%nat
      with (String.length suffix) in Hs by lia.
    rewrite Heq in Hs. exact Hs.
  - intros [p ->]. rewrite length_append.
    replace (String.length p + String.length suffix - String.length suffix)%nat
      with (String.length p) by lia.
    rewrite substring_append, String.eqb_refl, andb_true_r.
    apply Nat.leb_le. lia.
Qed.

Lemma endswith_false (s suffix : string) :
  (forall p, s <> (p ++ suffix)%string) -> endswith s suffix = false.
Proof.
  intros H. destruct (endswith s suffix) eqn:He; [|reflexivity].
  apply endswith_iff in He. destruct He as [p Hp]. exfalso. exact (H p Hp).
Qed.

Section Load.

Variable cipher : Type.
Variable Fernet : string -> result cipher.
Variable decrypt : cipher -> list Byte.byte -> result (list Byte.byte).
Variable YOLO : list Byte.byte -> result detector.
Variable new_consumer : result unit.
Variable new_producer : result Kafka.Producer.
Variable assign : string -> Z -> result unit.
Variable cuda_is_available : bool.

(** X7. A model whose path does not end in [.enc] is loaded as it is:
    [_load_model] reads no environment variable, decrypts nothing and
    writes no file; its one call is the load of the model from that path,
    and it returns what the load returns. *)
Theorem load_model_plain_path (model_path : string) (content : list Byte.byte)
        (m : detector) (w : world) :
  (forall p, model_path <> (p ++ ".enc")%string) ->
  lookup model_path (files w) = Some content ->
  YOLO content = Ok m ->
  _load_model cipher Fernet decrypt YOLO model_path w
  = (Ok m, after w [YoloLoad model_path]).
Proof.
  intros Hplain Hfile Hm. unfold _load_model, load_model_body.
  rewrite (endswith_false _ _ Hplain).
  step_world. rewrite Hfile. step_world. rewrite Hm. reflexivity.
Qed.

(** X10. A start-up that fails at the broker goes no further: when the
    consumer's or the producer's constructor or the partition assignment
    raises, [__init__] raises that exception, and the calls it has made
    are calls on the broker only; the key is not read and the model file
    is not touched. *)
Theorem init_broker_failure
        (model_path frames_topic detections_topic : string) (partition : Z)
        (e : exc) (w : world) :
  new_consumer = Raise e \/
  (new_consumer = Ok tt /\ new_producer = Raise e) \/
  (new_consumer = Ok tt /\ (exists p, new_producer = Ok p) /\
   assign frames_topic partition = Raise e) ->
  exists calls,
    __init__ cipher Fernet decrypt YOLO new_consumer new_producer assign cuda_is_available
             model_path frames_topic detections_topic partition w
    = (Raise e, after w calls) /\
    forallb is_broker_call calls = true.
Proof.
  intros [Hc|[[Hc Hp]|(Hc & [p Hp] & Ha)]]; unfold __init__.
  - step_world. rewrite Hc. exists [KafkaConsumerNew]. split; reflexivity.
  - step_world. rewrite Hc. step_world. rewrite Hp.
    exists [KafkaConsumerNew; KafkaProducerNew]. split; [|reflexivity].
    unfold after. rewrite <- app_assoc. reflexivity.
  - step_world. rewrite Hc. step_world. rewrite Hp. step_world. rewrite Ha.
    exists [KafkaConsumerNew; KafkaProducerNew; KafkaAssign frames_topic partition].
    split; [|reflexivity].
    unfold after. rewrite <- !app_assoc. reflexivity.
Qed.

(** X9. When the token decrypts, the model is loaded from exactly the
    bytes [decrypt] returned, by way of the file [/tmp/model.pt]: that
    copy of the plaintext is written before the load and is still there
    when [_load_model] ends, whether the load returned a model or raised. *)
Theorem load_model_decrypted_copy (model_path key : string) (f : cipher)
        (token plaintext : list Byte.byte) (w : world) :
  endswith model_path ".enc" = true ->
  lookup "MODEL_ENCRYPTION_KEY" (environ w) = Some key ->
  key_missing (Some key) = false ->
  Fernet key = Ok f ->
  lookup model_path (files w) = Some token ->
  decrypt f token = Ok plaintext ->
  files (snd (_load_model cipher Fernet decrypt YOLO model_path w))
  = ("/tmp/model.pt", plaintext) :: files w /\
  fst (_load_model cipher Fernet decrypt YOLO model_path w) = YOLO plaintext.
Proof.
  intros Henc Hk Hm Hf Ht Hd.
  unfold _load_model, load_model_body. rewrite Henc.
  step_world. rewrite Hk, Hm. step_world. rewrite Hf. step_world. rewrite Ht.
  step_world. rewrite Hd. step_world.
  cbn [lookup String.eqb Ascii.eqb Bool.eqb]. step_world.
  destruct (YOLO plaintext) as [m|e]; step_world; [split; reflexivity|].
  destruct (is_Exception e); split; reflexivity.
Qed.

End Load.

(** ** On concrete machines *)

Definition plain_model_path : string := "/models/yolo_world_m.pt".

(** A machine that holds the model in the clear and sets no key. *)
Definition world_plain : world :=
  mkWorld [] [(plain_model_path, [Byte.x01; Byte.x02; Byte.x03])] [].

Lemma plain_model_path_not_enc : forall p, plain_model_path <> (p ++ ".enc")%string.
Proof.
  intros p H.
  assert (He : endswith plain_model_path ".enc" = true).
  { apply endswith_iff. exists p. exact H. }
  vm_compute in He. discriminate.
Qed.

(** [load_model_plain_path] on the machine with the model in the clear. *)
Lemma load_model_plain_path_witness :
  lookup plain_model_path (files world_plain) = Some [Byte.x01; Byte.x02; Byte.x03] /\
  Fixtures.YOLO [Byte.x01; Byte.x02; Byte.x03] = Ok Fixtures.stub_detector /\
  _load_model string Fixtures.Fernet Fixtures.decrypt Fixtures.YOLO plain_model_path world_plain
  = (Ok Fixtures.stub_detector, after world_plain [YoloLoad plain_model_path]).
Proof.
  split; [reflexivity|]. split; [reflexivity|].
  exact (load_model_plain_path string Fixtures.Fernet Fixtures.decrypt Fixtures.YOLO
           plain_model_path [Byte.x01; Byte.x02; Byte.x03] Fixtures.stub_detector world_plain
           plain_model_path_not_enc eq_refl eq_refl).
Defined.

(** [init_broker_failure] with a broker that refuses the consumer. *)
Lemma init_broker_failure_witness :
  exists calls,
    __init__ string Fixtures.Fernet Fixtures.decrypt Fixtures.YOLO
             (Raise KafkaException) Fixtures.new_producer Fixtures.assign false
             Fixtures.encrypted_model_path "frames" "detections" 0
             Fixtures.world_without_key
    = (Raise KafkaException, after Fixtures.world_without_key calls) /\
    forallb is_broker_call calls = true.
Proof.
  exact (init_broker_failure string Fixtures.Fernet Fixtures.decrypt Fixtures.YOLO
           (Raise KafkaException) Fixtures.new_producer Fixtures.assign false
           Fixtures.encrypted_model_path "frames" "detections" 0
           KafkaException Fixtures.world_without_key (or_introl eq_refl)).
Defined.

(** [load_model_decrypt_fails] on the machine whose key is not the one the
    model was encrypted under. *)
Lemma load_model_decrypt_fails_witness :
  Fixtures.decrypt "other" [Byte.x6b; Byte.x01; Byte.x02; Byte.x03] = Raise InvalidToken /\
  _load_model string Fixtures.Fernet Fixtures.decrypt Fixtures.YOLO
              Fixtures.encrypted_model_path (Fixtures.world_with_key "other")
  = (Raise InvalidToken,
     after (Fixtures.world_with_key "other")
           [Getenv "MODEL_ENCRYPTION_KEY"; FernetNew; OpenRead Fixtures.encrypted_model_path;
            FernetDecrypt; LoggedError "Error loading model" InvalidToken]).
Proof.
  split; [reflexivity|].
  exact (load_model_decrypt_fails string Fixtures.Fernet Fixtures.decrypt Fixtures.YOLO
           Fixtures.encrypted_model_path "other" "other"
           [Byte.x6b; Byte.x01; Byte.x02; Byte.x03] InvalidToken
           (Fixtures.world_with_key "other")
           eq_refl eq_refl eq_refl eq_refl eq_refl eq_refl eq_refl).
Defined.

(** [load_model_decrypted_copy] on the machine with the right key. *)
Lemma load_model_decrypted_copy_witness :
  Fixtures.decrypt "key" [Byte.x6b; Byte.x01; Byte.x02; Byte.x03]
  = Ok [Byte.x01; Byte.x02; Byte.x03] /\
  files (snd (_load_model string Fixtures.Fernet Fixtures.decrypt Fixtures.YOLO
                          Fixtures.encrypted_model_path (Fixtures.world_with_key "key")))
  = ("/tmp/model.pt", [Byte.x01; Byte.x02; Byte.x03])
      :: files (Fixtures.world_with_key "key") /\
  fst (_load_model string Fixtures.Fernet Fixtures.decrypt Fixtures.YOLO
                   Fixtures.encrypted_model_path (Fixtures.world_with_key "key"))
  = Fixtures.YOLO [Byte.x01; Byte.x02; Byte.x03].
Proof.
  split; [reflexivity|].
  exact (load_model_decrypted_copy string Fixtures.Fernet Fixtures.decrypt Fixtures.YOLO
           Fixtures.encrypted_model_path "key" "key"
           [Byte.x6b; Byte.x01; Byte.x02; Byte.x03] [Byte.x01; Byte.x02; Byte.x03]
           (Fixtures.world_with_key "key")
           eq_refl eq_refl eq_refl eq_refl eq_refl eq_refl).
Defined.

End StartupMore.

(* ================================================================== *)
(** * More on the worker *)
(* ================================================================== *)

Module InferenceMore.
Import Inference.
Import InferenceFacts.

(** ** Vocabulary *)

(** [k in d] for the entries of a JSON object. *)
Definition has_key (k : string) (d : list (string * json)) : bool :=
  existsb (fun kv => String.eqb k (fst kv)) d.

(** The line a message leaves in the log, by what its value is: no value,
    text that is not JSON, a document that is not an object, an object
    without a ['frame'] entry, an object with one. *)
Definition message_error (value : option payload) : log_line :=
  match value with
  | None => LogError "Error processing message" TypeError
  | Some (NotJson _) => LogError "Error processing message" JSONDecodeError
  | Some (JsonText (JObj d)) =>
      if has_key "frame" d then LogError "Error processing frame" TypeError
      else LogError "Error processing frame" KeyError
  | Some (JsonText _) => LogError "Error processing frame" TypeError
  end.

(** The lines a sequence of polls leaves in the log. *)
Definition poll_lines (polls : list (polled)) : list log_line :=
  flat_map (fun p =>
              match p with
              | PollNone => []
              | PollError => [LogError "Consumer error" KafkaException]
              | PollMessage value => [message_error value]
              | PollRaises _ => []
              end) polls.

(** The JSON text of a detections dictionary. *)
Definition detections_json (frame_id : json) (b : Boxes) : json :=
  JObj [("frame_id", frame_id);
        ("boxes", JArr (map (fun r => JArr [JFloat (x1 r); JFloat (y1 r);
                                           JFloat (x2 r); JFloat (y2 r)]) (data b)));
        ("labels", JArr (map (fun r => JFloat (cls r)) (data b)));
        ("confidences", JArr (map (fun r => JFloat (conf r)) (data b)))].

(** ** Messages *)

Lemma dict_get_none (k : string) (d : list (string * json)) :
  has_key k d = false ->
  dict_get k (map (fun kv => (fst kv, of_json (snd kv))) d) = None.
Proof.
  unfold has_key. induction d as [|[k' j] r IH]; cbn [map dict_get existsb fst snd].
  - reflexivity.
  - intros H. apply orb_false_elim in H. destruct H as [Hk Hr].
    rewrite (IH Hr), Hk. reflexivity.
Qed.

Lemma dict_get_some (k : string) (d : list (string * json)) :
  has_key k d = true ->
  exists j, dict_get k (map (fun kv => (fst kv, of_json (snd kv))) d) = Some (of_json j).
Proof.
  unfold has_key. induction d as [|[k' j] r IH]; cbn [map dict_get existsb fst snd].
  - discriminate.
  - intros H. destruct (existsb _ r) eqn:Hr.
    + destruct (IH eq_refl) as [j' ->]. exists j'. reflexivity.
    + rewrite orb_false_r in H. rewrite H.
      rewrite (dict_get_none k r Hr). exists j. reflexivity.
Qed.

Section Run.

Variable str_other : pyval -> string.

(** [process_frame] on what [json.loads] built from a document. *)
Lemma process_frame_of_doc (doc : json) (s : state) :
  process_frame (of_json doc) s
  = (Ok PyNone, mkState (self s) (log s ++ [message_error (Some (JsonText doc))])).
Proof.
  unfold process_frame, try_except, detect, bind, lift.
  destruct doc; cbn [of_json getitem message_error]; try reflexivity.
  destruct (has_key "frame" d) eqn:Hk.
  - destruct (dict_get_some "frame" d Hk) as [j ->].
    rewrite from_numpy_of_json. reflexivity.
  - rewrite (dict_get_none "frame" d Hk). reflexivity.
Qed.

(** The step of the loop for a message. *)
Lemma process_message_line (value : option payload) (s : state) :
  process_message str_other value s
  = (Ok tt, mkState (self s) (log s ++ [message_error value])).
Proof.
  unfold process_message, try_except, bind, lift.
  destruct value as [[raw|doc]|]; cbn [json_loads message_error]; try reflexivity.
  rewrite process_frame_of_doc. reflexivity.
Qed.


Lemma poll_loop_lines (polls : list (polled)) :
  (forall e, ~ In (PollRaises e) polls) ->
  forall s,
    poll_loop str_other polls s = (Ok tt, mkState (self s) (log s ++ poll_lines polls)).
Proof.
  induction polls as [|p rest IH]; intros Hno s.
  - cbn. rewrite app_nil_r. destruct s; reflexivity.
  - assert (Hrest : forall e, ~ In (PollRaises e) rest).
    { intros e He. apply (Hno e). right. exact He. }
    destruct p as [| |value|e]; cbn [poll_loop poll_lines flat_map app].
    + apply IH, Hrest.
    + unfold bind, logger_error, modify. rewrite (IH Hrest). cbn [self log].
      rewrite <- app_assoc. reflexivity.
    + unfold bind. rewrite process_message_line, (IH Hrest). cbn [self log].
      rewrite <- app_assoc. reflexivity.
    + exfalso. apply (Hno e). left. reflexivity.
Qed.

Lemma poll_loop_app (polls rest : list (polled)) :
  (forall e, ~ In (PollRaises e) polls) ->
  forall s,
    poll_loop str_other (polls ++ rest) s
    = poll_loop str_other rest (mkState (self s) (log s ++ poll_lines polls)).
Proof.
  induction polls as [|p polls IH]; intros Hno s.
  - cbn. rewrite app_nil_r. destruct s; reflexivity.
  - assert (Hrest : forall e, ~ In (PollRaises e) polls).
    { intros e He. apply (Hno e). right. exact He. }
    destruct p as [| |value|e]; cbn [poll_loop poll_lines flat_map app].
    + apply IH, Hrest.
    + unfold bind, logger_error, modify. rewrite (IH Hrest). cbn [self log].
      rewrite <- app_assoc. reflexivity.
    + unfold bind. rewrite process_message_line, (IH Hrest). cbn [self log].
      rewrite <- app_assoc. reflexivity.
    + exfalso. apply (Hno e). left. reflexivity.
Qed.

(** X12. Whatever the worker polls, it keeps polling and only writes to
    its log: as long as [poll] itself does not raise, [run] is back at
    [poll] after any sequence of timeouts, error events and messages, with
    the consumer open, the producer and the model untouched, and the log
    longer by exactly the lines of [poll_lines]: none for a timeout, one
    for an error event, one for each message. *)
Theorem run_only_logs (polls : list (polled)) (s : state) :
  (forall e, ~ In (PollRaises e) polls) ->
  run str_other polls s = (Polling, mkState (self s) (log s ++ poll_lines polls)).
Proof.
  intros Hno. unfold run. rewrite (poll_loop_lines polls Hno). reflexivity.
Qed.

(** X13. An exception raised by [poll] ends the loop at once: the polls
    before it are handled as usual, the ones after it are never made, and
    the consumer is closed.  [run] then returns normally if the exception
    is a [KeyboardInterrupt] and lets it through otherwise. *)
Theorem run_stops_at_raise (before later : list (polled)) (e : exc) (s : state) :
  (forall e', ~ In (PollRaises e') before) ->
  run str_other (before ++ PollRaises e :: later) s
  = (if is_KeyboardInterrupt e then Returned else Propagated e,
     consumer_close (mkState (self s) (log s ++ poll_lines before))).
Proof.
  intros Hno. unfold run. rewrite (poll_loop_app before _ Hno).
  cbn [poll_loop]. unfold raise.
  destruct (is_KeyboardInterrupt e); reflexivity.
Qed.

End Run.

(** ** A frame that can be processed *)

(** X14. When the message is a dictionary whose ['frame'] is an array and
    that has a ['prompt'] and a ['frame_id'], and the detector returns at
    least one result with boxes, [process_frame] returns the detections of
    the first result under the message's own [frame_id]; the other results
    are ignored, nothing is logged and the instance is unchanged. *)
Theorem process_frame_detects (frame_data : pyval) (s : state)
        (a : ndarray) (prompt frame_id : pyval)
        (r : Results) (others : list Results) (b : Boxes) :
  getitem frame_data "frame" = Ok (PyNdarray a) ->
  getitem frame_data "prompt" = Ok prompt ->
  getitem frame_data "frame_id" = Ok frame_id ->
  model (self s) a prompt = Ok (r :: others) ->
  boxes r = Some b ->
  process_frame frame_data s = (Ok (detections_of frame_id b), s).
Proof.
  intros Hf Hp Hi Hm Hb.
  unfold process_frame, try_except, detect, bind, lift, get, ret.
  rewrite Hf. cbn [from_numpy]. rewrite Hp, Hi, Hm. cbn [first_result].
  unfold boxes_of. rewrite Hb. reflexivity.
Qed.

Lemma json_dumps_detections (frame_id : pyval) (jid : json) (b : Boxes) :
  to_json frame_id = Some jid ->
  json_dumps (detections_of frame_id b) = Ok (detections_json jid b).
Proof.
  intros Hid. unfold json_dumps, detections_of, detections_json.
  change (to_json (PyDict [("frame_id", frame_id); ("boxes", xyxy_tolist b);
                           ("labels", cls_tolist b); ("confidences", conf_tolist b)]))
    with (option_map JObj
            match to_json frame_id with
            | Some jx =>
                match
                  match to_json (xyxy_tolist b) with
                  | Some jb =>
                      match
                        match to_json (cls_tolist b) with
                        | Some jl =>
                            match
                              match to_json (conf_tolist b) with
                              | Some jc => Some [("confidences", jc)]
                              | None => None
                              end
                            with
                            | Some jr => Some (("labels", jl) :: jr)
                            | None => None
                            end
                        | None => None
                        end
                      with
                      | Some jr => Some (("boxes", jb) :: jr)
                      | None => None
                      end
                  | None => None
                  end
                with
                | Some jr => Some (("frame_id", jx) :: jr)
                | None => None
                end
            | None => None
            end).
  rewrite to_json_xyxy, to_json_cls, to_json_conf, Hid. reflexivity.
Qed.

Section PublishMore.

Variable str_other : pyval -> string.

(** X15. For the detections of a frame whose [frame_id] can be written as
    JSON, and with room in the producer's queue, the [if detections:]
    statement of [run] publishes exactly one record: on the detections
    topic, keyed by [str(frame_id)], its value the detections as JSON.
    Nothing else of the worker changes. *)
Theorem publish_detections_publishes (frame_id : pyval) (jid : json) (b : Boxes) (s : state) :
  to_json frame_id = Some jid ->
  Nat.ltb (List.length (Kafka.queue (producer (self s))))
          (Kafka.queue_limit (producer (self s))) = true ->
  let s' := snd (publish_detections str_other (detections_of frame_id b) s) in
  fst (publish_detections str_other (detections_of frame_id b) s) = Ok tt /\
  published s'
  = published s ++ [Kafka.mkRecord (detections_topic (self s))
                                   (py_str str_other frame_id)
                                   (detections_json jid b)] /\
  log s' = log s /\
  detections_topic (self s') = detections_topic (self s) /\
  consumer_closed (self s') = consumer_closed (self s).
Proof.
  intros Hid Hroom. cbv zeta.
  unfold publish_detections.
  change (truthy (detections_of frame_id b)) with true. cbv iota.
  unfold bind, lift, get.
  change (getitem (detections_of frame_id b) "frame_id") with (Ok frame_id).
  cbv iota beta. rewrite (json_dumps_detections frame_id jid b Hid).
  unfold Kafka.produce. rewrite Hroom.
  unfold set_producer, modify, published, Kafka.published, Kafka.poll0. cbn.
  rewrite app_assoc. repeat split.
Qed.

End PublishMore.

(** ** [main] *)

Section MainFacts.

Variable cipher : Type.
Variable Fernet : string -> result cipher.
Variable decrypt : cipher -> list Byte.byte -> result (list Byte.byte).
Variable YOLO : list Byte.byte -> result detector.
Variable new_consumer : result unit.
Variable new_producer : result Kafka.Producer.
Variable assign : string -> Z -> result unit.
Variable cuda_is_available : bool.
Variable str_other : pyval -> string.
Variable int_of_str : string -> result Z.

(** The three environment reads [main] makes before it parses the
    partition. *)
Definition first_reads : list event :=
  [Getenv "KAFKA_BOOTSTRAP_SERVERS"; Getenv "KAFKA_SSL_KEYSTORE_PASSWORD";
   Getenv "KAFKA_PARTITION"].

(** X16. A [KAFKA_PARTITION] that [int] rejects stops [main] before
    anything else happens: the exception of [int] leaves [main] after
    three reads of the environment, with no call on the broker, no file
    opened and no poll made. *)
Theorem main_bad_partition (polls : list (polled)) (w : world) (e : exc) :
  int_of_str (Os.getenv_default (environ w) "KAFKA_PARTITION" "0") = Raise e ->
  InferenceMain.main cipher Fernet decrypt YOLO new_consumer new_producer assign
                     cuda_is_available str_other int_of_str polls w
  = (InferenceMain.StartupFailed e, after w first_reads).
Proof.
  intros Hint. unfold InferenceMain.main, InferenceMain.build_worker,
    InferenceMain.getenv_default.
  StartupFacts.step_world.
  unfold Os.getenv_default in Hint. rewrite Hint.
  unfold after, first_reads. rewrite <- !app_assoc. reflexivity.
Qed.

Lemma load_model_no_key (model_path : string) (w : world) :
  endswith model_path ".enc" = true ->
  key_missing (lookup "MODEL_ENCRYPTION_KEY" (environ w)) = true ->
  fst (_load_model cipher Fernet decrypt YOLO model_path w) = Raise ValueError.
Proof.
  intros Henc Hkey. unfold _load_model, try_except.
  rewrite (StartupFacts.load_model_body_missing_key cipher Fernet decrypt YOLO
             model_path w Henc Hkey).
  reflexivity.
Qed.

Lemma init_no_key (model_path frames_topic detections_topic : string) (partition : Z)
      (w : world) :
  endswith model_path ".enc" = true ->
  key_missing (lookup "MODEL_ENCRYPTION_KEY" (environ w)) = true ->
  exists e,
    fst (__init__ cipher Fernet decrypt YOLO new_consumer new_producer assign
                  cuda_is_available model_path frames_topic detections_topic partition w)
    = Raise e /\
    (new_consumer = Ok tt -> (exists p, new_producer = Ok p) ->
     assign frames_topic partition = Ok tt -> e = ValueError).
Proof.
  intros Henc Hkey. unfold __init__, bind, emit, modify, lift.
  destruct new_consumer as [[]|e1]; [|exists e1; split; [reflexivity|discriminate]].
  destruct new_producer as [p|e1];
    [|exists e1; split; [reflexivity|intros _ [p Hp]; discriminate]].
  destruct (assign frames_topic partition) as [[]|e1];
    [|exists e1; split; [reflexivity|discriminate]].
  match goal with
  | |- context [_load_model _ _ _ _ model_path ?w0] =>
      pose proof (load_model_no_key model_path w0 Henc Hkey) as Hl;
      destruct (_load_model cipher Fernet decrypt YOLO model_path w0) as [[m|e1] w1]
  end; cbn [fst] in Hl; [discriminate|].
  injection Hl as ->. exists ValueError. split; [reflexivity|]. intros; reflexivity.
Qed.

(** X17. The worker does not start on its defaults alone.  With
    [MODEL_PATH] unset the model path is the encrypted default, so when
    [MODEL_ENCRYPTION_KEY] is unset or empty too, [main] ends in start-up
    with an exception and never polls, whatever the broker does; when the
    partition parses and the broker calls succeed, the exception is the
    [ValueError] of the missing key. *)
Theorem main_default_needs_key (polls : list (polled)) (w : world) :
  lookup "MODEL_PATH" (environ w) = None ->
  key_missing (lookup "MODEL_ENCRYPTION_KEY" (environ w)) = true ->
  exists e,
    fst (InferenceMain.main cipher Fernet decrypt YOLO new_consumer new_producer assign
                            cuda_is_available str_other int_of_str polls w)
    = InferenceMain.StartupFailed e /\
    (forall n,
       int_of_str (Os.getenv_default (environ w) "KAFKA_PARTITION" "0") = Ok n ->
       new_consumer = Ok tt -> (exists p, new_producer = Ok p) ->
       assign "frames" n = Ok tt -> e = ValueError).
Proof.
  intros Hpath Hkey. unfold InferenceMain.main, InferenceMain.build_worker,
    InferenceMain.getenv_default.
  StartupFacts.step_world. unfold Os.getenv_default.
  destruct (int_of_str _) as [n|e0] eqn:Hint.
  - StartupFacts.step_world. rewrite Hpath.
    match goal with
    | |- context [__init__ _ _ _ _ _ _ _ _ ?path ?ft ?dt n ?w0] =>
        destruct (init_no_key path ft dt n w0 eq_refl Hkey) as (e & He & Hval);
        destruct (__init__ cipher Fernet decrypt YOLO new_consumer new_producer assign
                           cuda_is_available path ft dt n w0) as [[worker|e1] w1]
    end; cbn [fst] in He; [discriminate|].
    injection He as ->. exists e. split; [reflexivity|].
    intros n' Hn' Hc Hp Ha. injection Hn' as <-. apply Hval; assumption.
  - exists e0. split; [reflexivity|]. intros n' Hn'. discriminate.
Qed.

End MainFacts.

(** ** On concrete inputs *)

(** A sequence of polls without exception: a timeout, an error event, a
    message without value, one that is not JSON, one that is a JSON array,
    one without ['frame'], and the frame message of number 7. *)
Definition quiet_polls : list (polled) :=
  [PollNone; PollError; PollMessage None;
   PollMessage (Some (NotJson "not json"));
   PollMessage (Some (JsonText (JArr [])));
   PollMessage (Some (JsonText (JObj [("frame_id", JInt 7)])));
   PollMessage (Some (JsonText (Fixtures.frame7_json (JStr "/9j/4AAQ"))))].

Lemma quiet_polls_never_raise : forall e, ~ In (PollRaises e) quiet_polls.
Proof. intros e H. cbn in H. intuition discriminate. Qed.

(** [run_only_logs] on the quiet polls. *)
Lemma run_only_logs_witness :
  run Fixtures.str_other quiet_polls (Fixtures.worker Fixtures.stub_detector)
  = (Polling,
     mkState (self (Fixtures.worker Fixtures.stub_detector))
             (log (Fixtures.worker Fixtures.stub_detector) ++ poll_lines quiet_polls)) /\
  poll_lines quiet_polls
  = [LogError "Consumer error" KafkaException;
     LogError "Error processing message" TypeError;
     LogError "Error processing message" JSONDecodeError;
     LogError "Error processing frame" TypeError;
     LogError "Error processing frame" KeyError;
     LogError "Error processing frame" TypeError].
Proof.
  split; [|reflexivity].
  exact (run_only_logs Fixtures.str_other quiet_polls
           (Fixtures.worker Fixtures.stub_detector) quiet_polls_never_raise).
Defined.

(** [run_stops_at_raise] when the process is interrupted after the quiet
    polls. *)
Lemma run_stops_at_raise_witness :
  run Fixtures.str_other
      (quiet_polls ++ PollRaises KeyboardInterrupt :: [PollMessage None])
      (Fixtures.worker Fixtures.stub_detector)
  = (Returned,
     consumer_close
       (mkState (self (Fixtures.worker Fixtures.stub_detector))
                (log (Fixtures.worker Fixtures.stub_detector) ++ poll_lines quiet_polls))).
Proof.
  exact (run_stops_at_raise Fixtures.str_other quiet_polls [PollMessage None]
           KeyboardInterrupt (Fixtures.worker Fixtures.stub_detector)
           quiet_polls_never_raise).
Defined.

(** [process_frame_detects] at the message of frame 7 with its image
    decoded; the detector returns two results. *)
Lemma process_frame_detects_witness :
  let two_results : detector :=
    fun _ _ => Ok [mkResults (Some (mkBoxes [Fixtures.one_box])); mkResults None] in
  process_frame Fixtures.frame7_object (Fixtures.worker two_results)
  = (Ok (detections_of (PyInt 7) (mkBoxes [Fixtures.one_box])), Fixtures.worker two_results).
Proof.
  cbv zeta.
  exact (process_frame_detects Fixtures.frame7_object
           (Fixtures.worker
              (fun _ _ => Ok [mkResults (Some (mkBoxes [Fixtures.one_box])); mkResults None]))
           Fixtures.image2x2 (PyStr "detect car") (PyInt 7)
           (mkResults (Some (mkBoxes [Fixtures.one_box]))) [mkResults None]
           (mkBoxes [Fixtures.one_box])
           eq_refl eq_refl eq_refl eq_refl eq_refl).
Defined.

(** [publish_detections_publishes] for the detections of frame 7. *)
Lemma publish_detections_publishes_witness :
  let s := Fixtures.worker Fixtures.stub_detector in
  let s' := snd (publish_detections Fixtures.str_other Fixtures.detections7 s) in
  fst (publish_detections Fixtures.str_other Fixtures.detections7 s) = Ok tt /\
  published s' = published s ++ [Fixtures.detection7_record] /\
  log s' = log s /\
  detections_topic (self s') = detections_topic (self s) /\
  consumer_closed (self s') = consumer_closed (self s).
Proof.
  cbv zeta.
  exact (publish_detections_publishes Fixtures.str_other (PyInt 7) (JInt 7)
           (mkBoxes [Fixtures.one_box]) (Fixtures.worker Fixtures.stub_detector)
           eq_refl eq_refl).
Defined.

(** An [int] for the fixtures: it reads "0" and "1" and rejects the rest. *)
Definition int_of_str_stub (text : string) : result Z :=
  if String.eqb text "0" then Ok 0
  else if String.eqb text "1" then Ok 1
  else Raise ValueError.

(** A machine whose partition is not a number. *)
Definition world_bad_partition : world :=
  mkWorld [("KAFKA_PARTITION", "zero")] [] [].

(** [main_bad_partition] on that machine. *)
Lemma main_bad_partition_witness :
  int_of_str_stub (Os.getenv_default (environ world_bad_partition) "KAFKA_PARTITION" "0")
  = Raise ValueError /\
  InferenceMain.main string Fixtures.Fernet Fixtures.decrypt Fixtures.YOLO
                     Fixtures.new_consumer Fixtures.new_producer Fixtures.assign false
                     Fixtures.str_other int_of_str_stub quiet_polls world_bad_partition
  = (InferenceMain.StartupFailed ValueError, after world_bad_partition first_reads).
Proof.
  split; [reflexivity|].
  exact (main_bad_partition string Fixtures.Fernet Fixtures.decrypt Fixtures.YOLO
           Fixtures.new_consumer Fixtures.new_producer Fixtures.assign false
           Fixtures.str_other int_of_str_stub quiet_polls world_bad_partition ValueError
           eq_refl).
Defined.

(** [main_default_needs_key] on the machine without the key. *)
Lemma main_default_needs_key_witness :
  lookup "MODEL_PATH" (environ Fixtures.world_without_key) = None /\
  key_missing (lookup "MODEL_ENCRYPTION_KEY" (environ Fixtures.world_without_key)) = true /\
  exists e,
    fst (InferenceMain.main string Fixtures.Fernet Fixtures.decrypt Fixtures.YOLO
                            Fixtures.new_consumer Fixtures.new_producer Fixtures.assign false
                            Fixtures.str_other int_of_str_stub quiet_polls
                            Fixtures.world_without_key)
    = InferenceMain.StartupFailed e /\
    (forall n,
       int_of_str_stub
         (Os.getenv_default (environ Fixtures.world_without_key) "KAFKA_PARTITION" "0")
       = Ok n ->
       Fixtures.new_consumer = Ok tt -> (exists p, Fixtures.new_producer = Ok p) ->
       Fixtures.assign "frames" n = Ok tt -> e = ValueError).
Proof.
  split; [reflexivity|]. split; [reflexivity|].
  exact (main_default_needs_key string Fixtures.Fernet Fixtures.decrypt Fixtures.YOLO
           Fixtures.new_consumer Fixtures.new_producer Fixtures.assign false
           Fixtures.str_other int_of_str_stub quiet_polls Fixtures.world_without_key
           eq_refl eq_refl).
Defined.

(** On the machine with the key, [main] starts and the worker runs. *)
Example main_with_key_runs :
  exists s w',
    InferenceMain.main string Fixtures.Fernet Fixtures.decrypt Fixtures.YOLO
                       Fixtures.new_consumer Fixtures.new_producer Fixtures.assign false
                       Fixtures.str_other int_of_str_stub quiet_polls
                       (Fixtures.world_with_key "key")
    = (InferenceMain.Ran Polling s, w') /\
    log s = poll_lines quiet_polls /\
    published s = [].
Proof. eexists. eexists. split; [lazy; reflexivity|]. split; reflexivity. Qed.

End InferenceMore.
